(** * Inventory import: field normalisation, statement building, retrying driver

    A shallow embedding of [scripts/import_inventory.py] and the properties
    of its normalisers, of the INSERT statement it builds, of its reading of
    the query endpoint's answers and of its row loop.

    Conventions of the embedding.
    - A Python [str] is a [string]; the characters are ASCII (codes below
      128, [ascii_text]).  [upper], [lower] and [strip] are Python's on
      such text; on other bytes they are the identity, where Python goes by
      the Unicode tables, and a property that would differ there is stated
      for [ascii_text] only.
    - A Python value that may be [None] is a [pyval] (or an [option] where
      only [None] and [str] occur).
    - A Python [float] is an IEEE binary64 value, [spec_float] with
      precision 53 and maximal exponent 1024; [float(text)] rounds the
      decimal to the nearest double, ties to even.
    - Code that can raise runs in the [outcome] monad; [try/except] is a
      match on the outcome.
    - The network and the clock are explicit: a run carries the [log] of
      its pauses and posts, and the endpoint is a function [net] of the
      log so far and the request.  Console output is not modelled. *)

From Stdlib Require Import ZArith String Ascii List Lia Bool SpecFloat DecimalString.
From Stdlib Require Import DecimalNat Sorted.
From stdpp Require Import base option gmap strings.
Import ListNotations.
Local Open Scope string_scope.
Local Open Scope list_scope.

(** ** Python values *)

#[warnings="-register-all"]
Inductive pyval : Type :=
| PNone
| PBool (b : bool)
| PInt (z : Z)
| PFloat (f : spec_float)
| PStr (s : string)
| PList (l : list pyval)
| PDict (d : list (string * pyval)).

(** An exception: its class and the text [str(e)] gives. *)
Record exc : Type := Exc { exc_class : string; exc_text : string }.

Inductive outcome (A : Type) : Type :=
| Return (a : A)
| Raise (e : exc).
Arguments Return {A} a.
Arguments Raise {A} e.

Definition bind {A B : Type} (m : outcome A) (k : A -> outcome B) : outcome B :=
  match m with
  | Return a => k a
  | Raise e => Raise e
  end.

Declare Scope py_scope.
Delimit Scope py_scope with py.
Notation "'do' x <- m ;; k" := (bind m (fun x => k))
  (at level 10, x name, m at level 99, k at level 200) : py_scope.
Notation "'do' ' pat <- m ;; k" := (bind m (fun x => match x with pat => k end))
  (at level 10, pat pattern, m at level 99, k at level 200) : py_scope.

(** [try: body except Exception as e: handler(e)] *)
Definition try_except {A : Type} (body : outcome A) (handler : exc -> A) : A :=
  match body with
  | Return a => a
  | Raise e => handler e
  end.

(** ** Strings *)

Definition code (c : ascii) : N := N_of_ascii c.

Definition between (lo hi : N) (c : ascii) : bool :=
  ((lo <=? code c) && (code c <=? hi))%N.

(** [str.isspace] on ASCII: tab, the line breaks, the four separators
    0x1c..0x1f and the space. *)
Definition is_space (c : ascii) : bool :=
  between 9 13 c || between 28 32 c.

(** The white space that [int] and [float] skip around an ASCII text (C's
    [isspace]): tab, the line breaks and the space; not the separators
    0x1c..0x1f, which [str.strip] removes and [int] and [float] reject. *)
Definition is_c_space (c : ascii) : bool :=
  between 9 13 c || between 32 32 c.

Definition is_digit (c : ascii) : bool := between 48 57 c.

Definition digit_val (c : ascii) : Z := Z.of_N (code c) - 48.

Definition upper_char (c : ascii) : ascii :=
  if between 97 122 c then ascii_of_N (code c - 32) else c.

Definition lower_char (c : ascii) : ascii :=
  if between 65 90 c then ascii_of_N (code c + 32) else c.

Fixpoint map_string (f : ascii -> ascii) (s : string) : string :=
  match s with
  | EmptyString => EmptyString
  | String c r => String (f c) (map_string f r)
  end.

(** [s.upper()] and [s.lower()] for ASCII text. *)
Definition upper : string -> string := map_string upper_char.
Definition lower : string -> string := map_string lower_char.

Fixpoint lstrip_by (p : ascii -> bool) (s : string) : string :=
  match s with
  | EmptyString => EmptyString
  | String c r => if p c then lstrip_by p r else s
  end.

Fixpoint rstrip_by (p : ascii -> bool) (s : string) : string :=
  match s with
  | EmptyString => EmptyString
  | String c r =>
      match rstrip_by p r with
      | EmptyString => if p c then EmptyString else String c EmptyString
      | r' => String c r'
      end
  end.

(** [s.strip()] *)
Definition strip (s : string) : string := rstrip_by is_space (lstrip_by is_space s).

(** What [int] and [float] do to the ends of their argument. *)
Definition c_strip (s : string) : string := rstrip_by is_c_space (lstrip_by is_c_space s).

(** [s.rstrip('/')] *)
Definition rstrip_slash (s : string) : string := rstrip_by (Ascii.eqb "/") s.

(** [s.replace(old, '')] for a one-character [old]. *)
Fixpoint remove_char (old : ascii) (s : string) : string :=
  match s with
  | EmptyString => EmptyString
  | String c r => if Ascii.eqb c old then remove_char old r else String c (remove_char old r)
  end.

(** [c in s] for a one-character [c]. *)
Fixpoint has_char (c : ascii) (s : string) : bool :=
  match s with
  | EmptyString => false
  | String d r => Ascii.eqb d c || has_char c r
  end.

Fixpoint drop_prefix (p s : string) : option string :=
  match p, s with
  | EmptyString, _ => Some s
  | String a p', String b s' => if Ascii.eqb a b then drop_prefix p' s' else None
  | String _ _, EmptyString => None
  end.

Definition starts_with (p s : string) : bool :=
  match drop_prefix p s with Some _ => true | None => false end.

(** [sub in s] *)
Fixpoint str_contains (sub s : string) : bool :=
  starts_with sub s ||
  match s with
  | EmptyString => false
  | String _ r => str_contains sub r
  end.

Fixpoint ends_with_char (c : ascii) (s : string) : bool :=
  match s with
  | EmptyString => false
  | String d EmptyString => Ascii.eqb d c
  | String _ r => ends_with_char c r
  end.

(** [sep.join(l)] *)
Fixpoint join (sep : string) (l : list string) : string :=
  match l with
  | [] => EmptyString
  | [x] => x
  | x :: r => x +:+ sep +:+ join sep r
  end.

(** [str(n)] for a natural number. *)
Definition str_of_nat (n : nat) : string := NilEmpty.string_of_uint (Nat.to_uint n).

(** ** [int(text)] and [float(text)] *)

(** Decimal digits with single underscores between them, as [int] and
    [float] accept them; [prev] tells whether the previous character was a
    digit. *)
Fixpoint int_digits (s : string) (prev : bool) (acc : Z) : option Z :=
  match s with
  | EmptyString => if prev then Some acc else None
  | String c r =>
      if is_digit c then int_digits r true (10 * acc + digit_val c)
      else if Ascii.eqb c "_" then (if prev then int_digits r false acc else None)
      else None
  end.

Definition split_sign (s : string) : bool * string :=
  match s with
  | String "-" r => (true, r)
  | String "+" r => (false, r)
  | _ => (false, s)
  end.

(** The interpreter's limit on the digits of a decimal text
    ([sys.get_int_max_str_digits()], 4300 unless changed). *)
Definition max_str_digits : nat := 4300.

Fixpoint digit_count (s : string) : nat :=
  match s with
  | EmptyString => 0
  | String c r => (if is_digit c then 1 else 0) + digit_count r
  end.

(** [int(s)]: [None] stands for [ValueError], which a text of more than
    [max_str_digits] digits raises too. *)
Definition py_int (s : string) : option Z :=
  let '(neg, body) := split_sign (c_strip s) in
  if (max_str_digits <? digit_count body)%nat then None
  else
    match int_digits body false 0 with
    | Some n => Some (if neg then - n else n)%Z
    | None => None
    end.

(** The underscore rule of [float]: an underscore stands between two
    digits; the underscores are then dropped. *)
Fixpoint float_underscores (s : string) (prev : ascii) : option string :=
  match s with
  | EmptyString => if Ascii.eqb prev "_" then None else Some EmptyString
  | String c r =>
      if Ascii.eqb c "_" then
        (if is_digit prev then float_underscores r c else None)
      else if Ascii.eqb prev "_" && negb (is_digit c) then None
      else match float_underscores r c with
           | Some t => Some (String c t)
           | None => None
           end
  end.

(** A run of digits: its value, its length and what follows it. *)
Fixpoint span_digits (s : string) (acc : Z) (n : nat) : Z * nat * string :=
  match s with
  | String c r => if is_digit c then span_digits r (10 * acc + digit_val c) (S n) else (acc, n, s)
  | EmptyString => (acc, n, s)
  end.

Definition binary64_div : spec_float -> spec_float -> spec_float := SFdiv 53 1024.
Definition binary64_mul : spec_float -> spec_float -> spec_float := SFmul 53 1024.

(** The double nearest to [m * 10^e]. *)
Definition float_of_decimal (neg : bool) (m : Z) (e : Z) : spec_float :=
  match m with
  | Zpos p =>
      binary64_div
        (S754_finite neg (Z.to_pos (Zpos p * 10 ^ Z.max e 0)) 0)
        (S754_finite false (Z.to_pos (10 ^ Z.max (- e) 0)) 0)
  | _ => S754_zero neg
  end.

(** The exponent part: nothing, or [e]/[E], an optional sign and digits. *)
Definition float_exponent (s : string) : option Z :=
  match s with
  | EmptyString => Some 0%Z
  | String c r =>
      if Ascii.eqb c "e" || Ascii.eqb c "E" then
        let '(neg, body) := split_sign r in
        match span_digits body 0 0 with
        | (_, O, _) => None
        | (v, S _, EmptyString) => Some (if neg then - v else v)%Z
        | (_, S _, String _ _) => None
        end
      else None
  end.

(** An unsigned decimal: digits, an optional point and digits, at least
    one digit, an optional exponent. *)
Definition float_decimal (neg : bool) (s : string) : option spec_float :=
  let '(ip, ni, r1) := span_digits s 0 0 in
  let '(m, nf, r2) :=
    match r1 with
    | String "." r => span_digits r ip 0
    | _ => (ip, O, r1)
    end in
  match (ni + nf)%nat with
  | O => None
  | S _ =>
      match float_exponent r2 with
      | Some e => Some (float_of_decimal neg m (e - Z.of_nat nf))
      | None => None
      end
  end.

(** [float(s)]: [None] stands for [ValueError]. *)
Definition py_float (s : string) : option spec_float :=
  match float_underscores (c_strip s) "000" with
  | None => None
  | Some t =>
      let '(neg, body) := split_sign t in
      let word := lower body in
      if String.eqb word "inf" || String.eqb word "infinity" then Some (S754_infinity neg)
      else if String.eqb word "nan" then Some S754_nan
      else float_decimal neg body
  end.

(** [int(f)]: truncation towards zero; infinities and NaN raise. *)
Definition int_of_float (f : spec_float) : option Z :=
  match f with
  | S754_zero _ => Some 0%Z
  | S754_finite s m e => Some (cond_Zopp s (Z.shiftl (Zpos m) e))
  | S754_infinity _ => None
  | S754_nan => None
  end.

(** The conversion of a positive [int] operand to [float]. *)
Definition float_of_pos (n : positive) : spec_float :=
  binary_normalize 53 1024 (Zpos n) 0 false.

(** ** The field normalisers *)

(** [not s] for a value that is [None] or a [str]. *)
Definition falsy_str (v : option string) : bool :=
  match v with
  | None => true
  | Some s => String.eqb s ""
  end.

Definition text_of (v : option string) : string :=
  match v with
  | Some s => s
  | None => EmptyString
  end.

Definition blank (v : option string) : bool :=
  falsy_str v || String.eqb (strip (text_of v)) "".

Definition parse_price (price_str : option string) : pyval :=
  if blank price_str then PInt 0
  else
    let cleaned := strip (remove_char "," (remove_char "$" (text_of price_str))) in
    match py_float cleaned with
    | Some f => PFloat f
    | None => PInt 0
    end.

Definition scaled (text : string) (factor : positive) : option Z :=
  match py_float text with
  | Some f => int_of_float (binary64_mul f (float_of_pos factor))
  | None => None
  end.

Definition parse_traffic (traffic_str : option string) : Z :=
  if blank traffic_str then 0%Z
  else
    let cleaned := strip (remove_char "," (upper (text_of traffic_str))) in
    default 0%Z
      (if has_char "K" cleaned then scaled (remove_char "K" cleaned) 1000
       else if has_char "M" cleaned then scaled (remove_char "M" cleaned) 1000000
       else match py_float cleaned with
            | Some f => int_of_float f
            | None => None
            end).

Definition str_in (s : string) (l : list string) : bool :=
  existsb (String.eqb s) l.

Definition parse_bool (val : option string) : bool :=
  if falsy_str val then false
  else str_in (lower (strip (text_of val))) ["yes"; "true"; "1"].

Definition parse_dofollow (val : option string) : bool :=
  if falsy_str val then true
  else
    let v := lower (strip (text_of val)) in
    if str_in v ["yes"; "true"; "1"] then true
    else if str_in v ["no"; "nofollow"; "false"; "0"; "-"] then false
    else true.

(** [re.sub(r'^https?://', '', url)]: the pattern is anchored at the start
    and matches in the given letter case only. *)
Definition sub_protocol (url : string) : string :=
  match drop_prefix "https://" url with
  | Some r => r
  | None =>
      match drop_prefix "http://" url with
      | Some r => r
      | None => url
      end
  end.

(** [re.sub(r'^www\.', '', url)] *)
Definition sub_www (url : string) : string :=
  match drop_prefix "www." url with
  | Some r => r
  | None => url
  end.

Definition clean_website (url : option string) : option string :=
  if falsy_str url then None
  else Some (rstrip_slash (sub_www (sub_protocol (text_of url)))).

Definition parse_int (val : option string) : option Z :=
  if blank val then None else py_int (text_of val).

(** ** Rows, records and the statement *)

(** A row of [csv.DictReader]: a column that the line is too short for
    holds [None]; a column the header lacks is not a key. *)
Abbreviation raw_row := (gmap string (option string)).

(** [row.get(key, '')] *)
Definition row_get (row : raw_row) (key : string) : option string :=
  default (Some "") (row !! key).

(** [row.get(key, '').strip() or None]; [None.strip()] raises. *)
Definition stripped_or_none (v : option string) : outcome pyval :=
  match v with
  | None => Raise (Exc "AttributeError" "'NoneType' object has no attribute 'strip'")
  | Some s => Return (if String.eqb (strip s) "" then PNone else PStr (strip s))
  end.

Definition py_of_int (v : option Z) : pyval :=
  match v with
  | Some z => PInt z
  | None => PNone
  end.

(** The [data] dictionary of [insert_website], in insertion order. *)
Definition build_data (row : raw_row) (website : string) : outcome (list (string * pyval)) :=
  (do contact <- stripped_or_none (row_get row "Contact") ;;
   do category <- stripped_or_none (row_get row "Category/Section") ;;
   Return
     [ ("website", PStr website);
       ("contact", contact);
       ("category", category);
       ("da", py_of_int (parse_int (row_get row "DA")));
       ("domain_rating", py_of_int (parse_int (row_get row "AS")));
       ("organic_traffic", PInt (parse_traffic (row_get row "New OT")));
       ("client_price", parse_price (row_get row "Price"));
       ("is_indexed", PBool (parse_bool (row_get row "Indexed")));
       ("do_follow", PBool (parse_dofollow (row_get row "Do Follow")));
       ("news", PBool (parse_bool (row_get row "News")));
       ("sponsored", PBool (parse_bool (row_get row "Sponsored")));
       ("cbd", PBool (parse_bool (row_get row "CBD")));
       ("casino", PBool (parse_bool (row_get row "Casino")));
       ("dating", PBool (parse_bool (row_get row "Dating")));
       ("crypto", PBool (parse_bool (row_get row "Crypto")));
       ("tat", py_of_int (parse_int (row_get row "TAT")));
       ("status", PStr "active") ])%py.

(** [v is not None] *)
Definition is_not_none (v : pyval) : bool :=
  match v with
  | PNone => false
  | _ => true
  end.

Definition fields_of (data : list (string * pyval)) : list string :=
  map fst (List.filter (fun kv => is_not_none (snd kv)) data).

Definition values_of (data : list (string * pyval)) : list pyval :=
  List.filter is_not_none (map snd data).

Definition placeholders_of (n : nat) : list string :=
  map (fun i => "$" +:+ str_of_nat (i + 1)) (seq 0 n).

Definition sql_of (fields placeholders : list string) : string :=
  "INSERT INTO website_inventory (" +:+ join ", " fields +:+ ") VALUES (" +:+
  join ", " placeholders +:+ ") ON CONFLICT (website) DO NOTHING RETURNING id, website".

(** The JSON body of the post. *)
Record request : Type := Request { sql : string; params : list pyval }.

Definition build_request (data : list (string * pyval)) : request :=
  let fields := fields_of data in
  let values := values_of data in
  let placeholders := placeholders_of (length fields) in
  Request (sql_of fields placeholders) values.

(** ** Reading the endpoint's answer *)

Definition type_name (v : pyval) : string :=
  match v with
  | PNone => "NoneType"
  | PBool _ => "bool"
  | PInt _ => "int"
  | PFloat _ => "float"
  | PStr _ => "str"
  | PList _ => "list"
  | PDict _ => "dict"
  end.

Definition float_is_zero (f : spec_float) : bool :=
  match f with
  | S754_zero _ => true
  | _ => false
  end.

(** The truth value of a Python object. *)
Definition truthy (v : pyval) : bool :=
  match v with
  | PNone => false
  | PBool b => b
  | PInt z => negb (z =? 0)%Z
  | PFloat f => negb (float_is_zero f)
  | PStr s => negb (String.eqb s "")
  | PList l => match l with [] => false | _ => true end
  | PDict d => match d with [] => false | _ => true end
  end.

Fixpoint dict_lookup (key : string) (d : list (string * pyval)) : option pyval :=
  match d with
  | [] => None
  | (k, v) :: r => if String.eqb k key then Some v else dict_lookup key r
  end.

(** [obj.get(key, dflt)]; only a dict has the method. *)
Definition py_get (obj : pyval) (key : string) (dflt : pyval) : outcome pyval :=
  match obj with
  | PDict d => Return (default dflt (dict_lookup key d))
  | _ => Raise (Exc "AttributeError"
                  ("'" +:+ type_name obj +:+ "' object has no attribute 'get'"))
  end.

(** [v > 0] *)
Definition py_gt_zero (v : pyval) : outcome bool :=
  match v with
  | PInt z => Return (0 <? z)%Z
  | PBool b => Return b
  | PFloat f => Return (SFltb (S754_zero false) f)
  | _ => Raise (Exc "TypeError"
                  ("'>' not supported between instances of '" +:+ type_name v +:+ "' and 'int'"))
  end.

(** [obj[key]] on a dict whose keys are strings. *)
Definition py_item (obj : pyval) (key : string) : outcome pyval :=
  match obj with
  | PDict d =>
      match dict_lookup key d with
      | Some v => Return v
      | None => Raise (Exc "KeyError" ("'" +:+ key +:+ "'"))
      end
  | _ => Raise (Exc "TypeError" ("'" +:+ type_name obj +:+ "' object is not subscriptable"))
  end.

(** [obj[0]] *)
Definition py_first (obj : pyval) : outcome pyval :=
  match obj with
  | PList (x :: _) => Return x
  | PList [] => Raise (Exc "IndexError" "list index out of range")
  | PStr (String c _) => Return (PStr (String c EmptyString))
  | PStr EmptyString => Raise (Exc "IndexError" "string index out of range")
  | PDict _ => Raise (Exc "KeyError" "0")
  | _ => Raise (Exc "TypeError" ("'" +:+ type_name obj +:+ "' object is not subscriptable"))
  end.

(** The body of the [try] once the answer is there: [answer] is what
    [requests.post(...)] followed by [response.json()] gives, a parsed JSON
    value or the exception one of the two raised. *)
Definition read_answer (answer : outcome pyval) : outcome (pyval * pyval) :=
  (do result <- answer ;;
   do success <- py_get result "success" PNone ;;
   if truthy success then
     do count <- py_get result "rowCount" (PInt 0) ;;
     do positive <- py_gt_zero count ;;
     if positive then
       do rows <- py_item result "rows" ;;
       do first <- py_first rows ;;
       Return (first, PNone)
     else Return (PNone, PStr "Duplicate (skipped)")
   else
     do error <- py_get result "error" (PStr "Unknown error") ;;
     Return (PNone, error))%py.

(** The [try ... except Exception as e: return None, str(e)] of
    [insert_website]. *)
Definition classify_answer (answer : outcome pyval) : pyval * pyval :=
  try_except (read_answer answer) (fun e => (PNone, PStr (exc_text e))).

(** ** The driver *)

(** What a run does to the outside: pauses, in milliseconds, and posts. *)
Inductive event : Type :=
| Sleep (ms : Z)
| Post (req : request).

(** One line of [errors]: the row number, the website text and the error
    that the source interpolates into [f"Row {i+1} ({...}): {error}"]. *)
Record error_line : Type :=
  ErrorLine { line_row : nat; line_site : option string; line_error : pyval }.

Record run : Type :=
  Run { success_count : nat;
        skip_count : nat;
        error_count : nat;
        errors : list error_line;
        log : list event }.

Definition count_success (st : run) (tr : list event) : run :=
  Run (success_count st + 1) (skip_count st) (error_count st) (errors st) tr.

Definition count_skip (st : run) (tr : list event) : run :=
  Run (success_count st) (skip_count st + 1) (error_count st) (errors st) tr.

Definition count_error (st : run) (tr : list event) (line : error_line) : run :=
  Run (success_count st) (skip_count st) (error_count st + 1) (errors st ++ [line]) tr.

(** [needle in v] for a string [needle]. *)
Definition py_in (needle : string) (v : pyval) : outcome bool :=
  match v with
  | PStr s => Return (str_contains needle s)
  | PList l =>
      Return (existsb (fun x => match x with PStr s => String.eqb s needle | _ => false end) l)
  | PDict d =>
      Return (match dict_lookup needle d with Some _ => true | None => false end)
  | _ => Raise (Exc "TypeError" ("argument of type '" +:+ type_name v +:+ "' is not iterable"))
  end.

(** [error and 'Too many requests' in error] *)
Definition rate_limited (error : pyval) : outcome bool :=
  if truthy error then py_in "Too many requests" error else Return false.

(** [error == "Duplicate (skipped)"] *)
Definition is_duplicate (error : pyval) : bool :=
  match error with
  | PStr s => String.eqb s "Duplicate (skipped)"
  | _ => false
  end.

Definition retries : nat := 3.
Definition pace_ms : Z := 700.
Definition cooldown_ms : Z := 60000.

(** The counting at the end of the loop body: [if result: ... elif error ==
    "Duplicate (skipped)": ... else: ...]. *)
Definition tally (i : nat) (row : raw_row) (st : run) (result error : pyval)
           (tr : list event) : run :=
  if truthy result then count_success st tr
  else if is_duplicate error then count_skip st tr
  else count_error st tr
         (ErrorLine (i + 1) (default (Some "unknown") (row !! "Magazines")) error).

Section Driver.

(** The endpoint: the answer to a request, given all that happened
    before it. *)
Variable net : list event -> request -> outcome pyval.

Definition insert_website (row : raw_row) (tr : list event)
  : outcome (pyval * pyval * list event) :=
  let website := clean_website (row_get row "Magazines") in
  if falsy_str website then Return (PNone, PStr "No website URL", tr)
  else
    (do data <- build_data row (text_of website) ;;
     let req := build_request data in
     let '(result, error) := classify_answer (net tr req) in
     Return (result, error, tr ++ [Post req]))%py.

(** [for attempt in range(retries)], with [n] attempts left. *)
Fixpoint attempts (n : nat) (row : raw_row) (result error : pyval) (tr : list event)
  : outcome (pyval * pyval * list event) :=
  match n with
  | O => Return (result, error, tr)
  | S n' =>
      (do '(result', error', tr') <- insert_website row tr ;;
       do limited <- rate_limited error' ;;
       if limited then attempts n' row result' error' (tr' ++ [Sleep cooldown_ms])
       else Return (result', error', tr'))%py
  end.

(** The body of the row loop for a row at or after [start_from]. *)
Definition process_row (i : nat) (row : raw_row) (st : run) : outcome run :=
  let tr := log st ++ [Sleep pace_ms] in
  if falsy_str (default None (row !! "Magazines"))
     || String.eqb (strip (text_of (row_get row "Magazines"))) ""
  then Return (count_skip st tr)
  else
    (do '(result, error, tr') <- attempts retries row PNone PNone tr ;;
     Return (tally i row st result error tr'))%py.

(** [for i, row in enumerate(rows)] *)
Fixpoint rows_loop (start_from : Z) (rows : list raw_row) (i : nat) (st : run)
  : outcome run :=
  match rows with
  | [] => Return st
  | row :: rest =>
      if (Z.of_nat i <? start_from)%Z then rows_loop start_from rest (S i) st
      else (do st' <- process_row i row st ;; rows_loop start_from rest (S i) st')%py
  end.

Definition main (start_from : Z) (rows : list raw_row) : outcome run :=
  rows_loop start_from rows 0 (Run 0 0 0 [] []).

End Driver.

(** ** Measures on logs and rows *)

Definition is_post (e : event) : bool :=
  match e with
  | Post _ => true
  | Sleep _ => false
  end.

Definition is_cooldown (e : event) : bool :=
  match e with
  | Sleep ms => (ms =? cooldown_ms)%Z
  | Post _ => false
  end.

Definition posts (tr : list event) : nat := length (List.filter is_post tr).
Definition cooldowns (tr : list event) : nat := length (List.filter is_cooldown tr).

Definition counted (st : run) : nat := success_count st + skip_count st + error_count st.

(** A row all of whose columns hold text: no line was too short. *)
Definition full_row (row : raw_row) : Prop :=
  forall key, row !! key <> Some None.

(** An error that is text or missing, as the endpoint documents it. *)
Definition textual (v : pyval) : bool :=
  match v with
  | PStr _ => true
  | PNone => true
  | _ => false
  end.

(** An endpoint whose answers carry only textual errors. *)
Definition textual_errors (net : list event -> request -> outcome pyval) : Prop :=
  forall tr req d e,
    net tr req = Return (PDict d) -> dict_lookup "error" d = Some e -> textual e = true.

(** The columns of the statement that every record carries, and those a
    record may lack. *)
Definition always_fields : list string :=
  ["website"; "organic_traffic"; "client_price"; "is_indexed"; "do_follow"; "news";
   "sponsored"; "cbd"; "casino"; "dating"; "crypto"; "status"].

Definition optional_fields : list string :=
  ["contact"; "category"; "da"; "domain_rating"; "tat"].

(** [n] copies of a character. *)
Fixpoint repeat_char (c : ascii) (n : nat) : string :=
  match n with
  | O => EmptyString
  | S n' => String c (repeat_char c n')
  end.

Fixpoint all_chars (p : ascii -> bool) (s : string) : bool :=
  match s with
  | EmptyString => true
  | String c r => p c && all_chars p r
  end.

(** Text of ASCII characters only. *)
Definition is_ascii (c : ascii) : bool := (code c <? 128)%N.

Definition ascii_text (s : string) : bool := all_chars is_ascii s.

(** Text without the separators 0x1c..0x1f. *)
Definition no_separators (s : string) : bool :=
  all_chars (fun c => negb (between 28 31 c)) s.

(** The number a string of digits denotes, after [acc]. *)
Fixpoint decimal_value (s : string) (acc : Z) : Z :=
  match s with
  | EmptyString => acc
  | String c r => decimal_value r (10 * acc + digit_val c)
  end.

(** ** Sample rows and endpoints *)

Definition listing_row : raw_row :=
  <["Magazines" := Some "https://www.Example.com/"]>
    (<["Contact" := Some " ads@example.com "]>
       (<["DA" := Some "40"]> (<["Price" := Some "$75"]> (<["New OT" := Some "74K"]> ∅)))).

Definition bare_row : raw_row := <["Magazines" := Some "Example.com"]> ∅.

Definition blank_row : raw_row := <["Magazines" := Some "  "]> ∅.

Definition protocol_only_row : raw_row := <["Magazines" := Some "https://"]> ∅.

(** A line with the website only, under a header that has a Contact
    column: [csv.DictReader] fills the missing column with [None]. *)
Definition short_row : raw_row := <["Contact" := None]> bare_row.


Definition site_of (req : request) : option string :=
  match params req with
  | PStr w :: _ => Some w
  | _ => None
  end.

Definition posted (w : option string) (e : event) : bool :=
  match e, w with
  | Post r, Some b =>
      match site_of r with
      | Some a => String.eqb a b
      | None => false
      end
  | _, _ => false
  end.

Definition created (req : request) : pyval :=
  PDict [("success", PBool true); ("rowCount", PInt 1);
         ("rows", PList [PDict [("id", PInt 1);
                                ("website", match site_of req with
                                            | Some w => PStr w
                                            | None => PNone
                                            end)]])].

Definition ignored : pyval :=
  PDict [("success", PBool true); ("rowCount", PInt 0); ("rows", PList [])].

Definition refused (text : string) : pyval :=
  PDict [("success", PBool false); ("error", PStr text)].

(** An endpoint that keeps the websites it was sent: insert or ignore. *)
Definition store_net (tr : list event) (req : request) : outcome pyval :=
  Return (if existsb (posted (site_of req)) tr then ignored else created req).

(** An endpoint that turns the first [k] posts away as too many, and
    creates a row for every later one. *)
Definition busy_net (k : nat) (tr : list event) (req : request) : outcome pyval :=
  Return (if (posts tr <? k)%nat
          then refused "Too many requests, please try again later"
          else created req).

(** An endpoint out of reach. *)
Definition down_net (tr : list event) (req : request) : outcome pyval :=
  Raise (Exc "ConnectionError" "Connection refused").

(** ** The end of a run *)

(** What the run lists of its errors after the three totals: nothing, all
    of them under "Errors:", or the first ten under "First 10 errors:"
    ([if errors and error_count <= 10: ... elif errors: ...]). *)
Inductive listing : Type :=
| NoListing
| AllErrors (lines : list error_line)
| FirstTen (lines : list error_line).

Definition error_listing (st : run) : listing :=
  match errors st with
  | [] => NoListing
  | _ :: _ =>
      if (error_count st <=? 10)%nat then AllErrors (errors st)
      else FirstTen (firstn 10 (errors st))
  end.

Definition listed (l : listing) : list error_line :=
  match l with
  | NoListing => []
  | AllErrors lines => lines
  | FirstTen lines => lines
  end.

(** ** More measures on logs and runs *)

Definition is_pace (e : event) : bool :=
  match e with
  | Sleep ms => (ms =? pace_ms)%Z
  | Post _ => false
  end.

Definition paces (tr : list event) : nat := length (List.filter is_pace tr).

(** The same run with the row numbers of its error lines moved by [k]. *)
Definition shift_line (k : nat) (l : error_line) : error_line :=
  ErrorLine (line_row l + k) (line_site l) (line_error l).

Definition shift_run (k : nat) (st : run) : run :=
  Run (success_count st) (skip_count st) (error_count st)
      (map (shift_line k) (errors st)) (log st).

Definition map_outcome {A B : Type} (f : A -> B) (o : outcome A) : outcome B :=
  match o with
  | Return a => Return (f a)
  | Raise e => Raise e
  end.

(** What [clean_website] can take off the front of a text. *)
Definition website_prefixes : list string :=
  [""; "http://"; "https://"; "www."; "http://www."; "https://www."].

(** The seventeen columns of a record, in the order of the dictionary. *)
Definition record_columns : list string :=
  ["website"; "contact"; "category"; "da"; "domain_rating"; "organic_traffic";
   "client_price"; "is_indexed"; "do_follow"; "news"; "sponsored"; "cbd"; "casino";
   "dating"; "crypto"; "tat"; "status"].

(** [l1] is [l2] with some elements left out. *)
Fixpoint subsequence (l1 l2 : list string) : bool :=
  match l1, l2 with
  | [], _ => true
  | _ :: _, [] => false
  | x :: r1, y :: r2 => if String.eqb x y then subsequence r1 r2 else subsequence l1 r2
  end.


(** An endpoint that refuses every post with the same text. *)
Definition failing_net (text : string) (tr : list event) (req : request) : outcome pyval :=
  Return (refused text).

(** The run state after row 7 was turned away three times. *)
Definition refused_run : run :=
  Eval vm_compute in
    match process_row (busy_net 3) 6 bare_row (Run 4 1 1 [] []) with
    | Return st => st
    | Raise _ => Run 0 0 0 [] []
    end.

(** A run of five rows, resumed at the second, against an endpoint that
    refuses every post. *)
Definition sample_rows : list raw_row :=
  [listing_row; bare_row; blank_row; protocol_only_row; bare_row].

Definition failed_run : run :=
  Eval vm_compute in
    match main (failing_net "relation is read-only") 1 sample_rows with
    | Return st => st
    | Raise _ => Run 0 0 0 [] []
    end.

(** * Properties *)

#[local] Arguments String.append !s1 s2 : simpl nomatch.

(** Membership in a list given by its elements. *)
Ltac in_list := simpl; repeat (first [left; reflexivity | right]).

(** ** Strings *)

Lemma rstrip_by_tail (p : ascii -> bool) (s : string) :
  exists t, s = rstrip_by p s +:+ t /\ all_chars p t = true.
Proof.
  induction s as [|c r [t [Hr Ht]]]; simpl.
  - exists EmptyString. split; reflexivity.
  - destruct (rstrip_by p r) as [|d r'] eqn:E.
    + destruct (p c) eqn:Hc.
      * exists (String c r). split; [reflexivity|]. simpl. rewrite Hc. simpl in Hr.
        rewrite Hr. exact Ht.
      * exists t. simpl in *. split; [congruence | exact Ht].
    + exists t. simpl in *. split; [congruence | exact Ht].
Qed.

Lemma rstrip_by_end (p : ascii -> bool) (s : string) (c : ascii) :
  ends_with_char c (rstrip_by p s) = true -> p c = false.
Proof.
  induction s as [|a r IH]; simpl; [discriminate|].
  destruct (rstrip_by p r) as [|d r'] eqn:E.
  - destruct (p a) eqn:Ha; simpl; [discriminate|].
    intros H. apply Ascii.eqb_eq in H. subst. exact Ha.
  - intros H. apply IH. exact H.
Qed.

Lemma all_chars_repeat (c : ascii) (t : string) :
  all_chars (Ascii.eqb c) t = true -> t = repeat_char c (String.length t).
Proof.
  induction t as [|d r IH]; simpl; [reflexivity|].
  intros H. apply andb_prop in H as [Hd Hr].
  apply Ascii.eqb_eq in Hd. subst. f_equal. apply IH. exact Hr.
Qed.

Lemma rstrip_by_fixed (p : ascii -> bool) (s : string) :
  all_chars (fun c => negb (p c)) s = true -> rstrip_by p s = s.
Proof.
  induction s as [|c r IH]; simpl; [reflexivity|].
  intros H. apply andb_prop in H as [Hc Hr]. rewrite (IH Hr).
  destruct r; [|reflexivity].
  apply negb_true_iff in Hc. rewrite Hc. reflexivity.
Qed.

Lemma lstrip_by_fixed (p : ascii -> bool) (s : string) :
  all_chars (fun c => negb (p c)) s = true -> lstrip_by p s = s.
Proof.
  destruct s as [|c r]; simpl; [reflexivity|].
  intros H. apply andb_prop in H as [Hc _].
  apply negb_true_iff in Hc. rewrite Hc. reflexivity.
Qed.

Lemma digit_not_space (c : ascii) : is_digit c = true -> is_space c = false.
Proof.
  unfold is_digit, is_space, between. intros H.
  apply andb_prop in H as [H1 H2].
  apply N.leb_le in H1. apply N.leb_le in H2.
  apply orb_false_iff. split; apply andb_false_iff.
  - right. apply N.leb_gt. lia.
  - right. apply N.leb_gt. lia.
Qed.

Lemma digit_val_bounds (c : ascii) : is_digit c = true -> (0 <= digit_val c <= 9)%Z.
Proof.
  unfold is_digit, between, digit_val. intros H.
  apply andb_prop in H as [H1 H2].
  apply N.leb_le in H1. apply N.leb_le in H2. lia.
Qed.

Lemma all_chars_weaken (p q : ascii -> bool) (s : string) :
  (forall c, p c = true -> q c = true) -> all_chars p s = true -> all_chars q s = true.
Proof.
  intros Hpq. induction s as [|c r IH]; simpl; [reflexivity|].
  intros H. apply andb_prop in H as [Hc Hr].
  rewrite (Hpq c Hc), (IH Hr). reflexivity.
Qed.

Lemma strip_digits (s : string) : all_chars is_digit s = true -> strip s = s.
Proof.
  intros H. unfold strip.
  assert (Hs : all_chars (fun c => negb (is_space c)) s = true).
  { apply (all_chars_weaken is_digit); [|exact H].
    intros c Hc. rewrite (digit_not_space c Hc). reflexivity. }
  rewrite (lstrip_by_fixed _ _ Hs). apply rstrip_by_fixed. exact Hs.
Qed.

(** ** Numbers *)


Lemma int_digits_all_digits (s : string) :
  forall prev acc,
    all_chars is_digit s = true -> (s <> EmptyString \/ prev = true) ->
    int_digits s prev acc = Some (decimal_value s acc).
Proof.
  induction s as [|c r IH]; simpl; intros prev acc H Hne.
  - destruct Hne as [Hne | ->]; [congruence | reflexivity].
  - apply andb_prop in H as [Hc Hr]. rewrite Hc. apply IH; [exact Hr | right; reflexivity].
Qed.

Lemma decimal_value_nonneg (s : string) :
  forall acc, all_chars is_digit s = true -> (0 <= acc)%Z -> (0 <= decimal_value s acc)%Z.
Proof.
  induction s as [|c r IH]; simpl; intros acc H Hacc; [exact Hacc|].
  apply andb_prop in H as [Hc Hr]. apply IH; [exact Hr|].
  pose proof (digit_val_bounds c Hc). lia.
Qed.


Lemma build_data_shape (row : raw_row) (website : string) (data : list (string * pyval)) :
  build_data row website = Return data ->
  exists contact category,
    stripped_or_none (row_get row "Contact") = Return contact /\
    stripped_or_none (row_get row "Category/Section") = Return category /\
    data =
      [ ("website", PStr website);
        ("contact", contact);
        ("category", category);
        ("da", py_of_int (parse_int (row_get row "DA")));
        ("domain_rating", py_of_int (parse_int (row_get row "AS")));
        ("organic_traffic", PInt (parse_traffic (row_get row "New OT")));
        ("client_price", parse_price (row_get row "Price"));
        ("is_indexed", PBool (parse_bool (row_get row "Indexed")));
        ("do_follow", PBool (parse_dofollow (row_get row "Do Follow")));
        ("news", PBool (parse_bool (row_get row "News")));
        ("sponsored", PBool (parse_bool (row_get row "Sponsored")));
        ("cbd", PBool (parse_bool (row_get row "CBD")));
        ("casino", PBool (parse_bool (row_get row "Casino")));
        ("dating", PBool (parse_bool (row_get row "Dating")));
        ("crypto", PBool (parse_bool (row_get row "Crypto")));
        ("tat", py_of_int (parse_int (row_get row "TAT")));
        ("status", PStr "active") ].
Proof.
  unfold build_data, bind. intros H.
  destruct (stripped_or_none (row_get row "Contact")) as [contact|]; [|discriminate].
  destruct (stripped_or_none (row_get row "Category/Section")) as [category|]; [|discriminate].
  exists contact, category. repeat split. congruence.
Qed.

(** ** The website normaliser *)

(** The protocol step as it runs: a leading "http://" or "https://" in
    lower case is taken off; a text that starts with neither keeps its
    start. *)
Theorem clean_website_protocol_lower_case :
  (forall rest, clean_website (Some ("https://" +:+ rest)) = Some (rstrip_slash (sub_www rest)))
  /\ (forall rest, clean_website (Some ("http://" +:+ rest)) = Some (rstrip_slash (sub_www rest)))
  /\ (forall url, url <> "" ->
        starts_with "https://" url = false -> starts_with "http://" url = false ->
        clean_website (Some url) = Some (rstrip_slash (sub_www url)))
  /\ clean_website (Some "https://www.Example.com/") = Some "Example.com"
  /\ clean_website (Some "HTTPS://www.Example.com/") = Some "HTTPS://www.Example.com".
Proof.
  repeat split.
  - intros url Hne Hs Hp. unfold clean_website.
    destruct url as [|c r]; [congruence|]. simpl falsy_str. cbv iota.
    unfold text_of, sub_protocol. unfold starts_with in Hs, Hp.
    destruct (drop_prefix "https://" (String c r)); [discriminate|].
    destruct (drop_prefix "http://" (String c r)); [discriminate|]. reflexivity.
Qed.

Lemma clean_website_protocol_lower_case_witness :
  clean_website (Some "HTTP://example.com") = Some (rstrip_slash (sub_www "HTTP://example.com")).
Proof.
  apply (proj1 (proj2 (proj2 clean_website_protocol_lower_case))).
  - discriminate.
  - reflexivity.
  - reflexivity.
Defined.

(** C5: at "HTTPS://www.Example.com/" the protocol is not removed, against
    the step's own comment ("Remove protocol") and the docstring ("to just
    domain"): the pattern is matched in lower case only, "www." then no
    longer stands at the start, and the result is
    "HTTPS://www.Example.com", not the "Example.com" that
    "https://www.Example.com/" gives. *)
Lemma clean_website_upper_case_protocol_kept :
  clean_website (Some "HTTPS://www.Example.com/") = Some "HTTPS://www.Example.com"
  /\ clean_website (Some "HTTPS://www.Example.com/") <> Some "Example.com"
  /\ clean_website (Some "HTTPS://www.Example.com/") <> clean_website (Some "https://www.Example.com/").
Proof.
  repeat split; discriminate.
Qed.

(** C6, as the code has it: [clean_website] removes every trailing "/", not
    one: the result never ends in "/", and the text after the protocol and
    "www." steps is the result followed by slashes only. *)
Theorem clean_website_strips_all_trailing_slashes (url : option string) (r : string) :
  clean_website url = Some r ->
  ends_with_char "/" r = false
  /\ exists n, sub_www (sub_protocol (text_of url)) = r +:+ repeat_char "/" n.
Proof.
  unfold clean_website. destruct (falsy_str url); [discriminate|].
  intros H. injection H as <-. split.
  - destruct (ends_with_char "/" (rstrip_slash (sub_www (sub_protocol (text_of url))))) eqn:E;
      [|reflexivity].
    apply rstrip_by_end in E. discriminate.
  - destruct (rstrip_by_tail (Ascii.eqb "/") (sub_www (sub_protocol (text_of url))))
      as [t [Hs Ht]].
    exists (String.length t). rewrite <- (all_chars_repeat _ _ Ht). exact Hs.
Qed.

Lemma clean_website_strips_all_trailing_slashes_witness :
  ends_with_char "/" "example.com" = false
  /\ exists n, sub_www (sub_protocol (text_of (Some "http://example.com///")))
               = "example.com" +:+ repeat_char "/" n.
Proof.
  apply (clean_website_strips_all_trailing_slashes (Some "http://example.com///") "example.com").
  reflexivity.
Defined.

(** C6 fails as stated: of two trailing slashes none is kept. *)
Lemma clean_website_two_slashes :
  clean_website (Some "example.com//") = Some "example.com"
  /\ clean_website (Some "example.com//") <> Some "example.com/".
Proof.
  split; [reflexivity | discriminate].
Qed.

(** ** The number normalisers *)

Lemma int_of_float_truncates (s : bool) (m : positive) (e : Z) :
  int_of_float (S754_finite s m e)
  = Some (cond_Zopp s (if (0 <=? e)%Z then Zpos m * 2 ^ e else Zpos m / 2 ^ (- e)))%Z.
Proof.
  unfold int_of_float. do 2 f_equal.
  destruct (0 <=? e)%Z eqn:He.
  - apply Z.shiftl_mul_pow2. apply Z.leb_le. exact He.
  - apply Z.shiftl_div_pow2. apply Z.leb_gt in He. lia.
Qed.

(** C7: [parse_traffic] gives 0 on blank input; otherwise it upper-cases the
    text, drops the commas and trims it, and then, if a "K" occurs, drops
    the "K"s, reads the rest as a float, multiplies by 1000 and truncates;
    else likewise with "M" and 1000000; else reads the text as a float and
    truncates.  Text that is no float, or a float that has no integer part
    (an infinity, a NaN), gives 0.  So "74K" gives 74000, "158.1K" gives
    158100 and "2M" gives 2000000. *)
Theorem parse_traffic_cases :
  (forall v, blank v = true -> parse_traffic v = 0%Z)
  /\ (forall v cleaned,
        blank v = false -> cleaned = strip (remove_char "," (upper (text_of v))) ->
        (has_char "K" cleaned = true ->
         parse_traffic v = default 0%Z (scaled (remove_char "K" cleaned) 1000))
        /\ (has_char "K" cleaned = false -> has_char "M" cleaned = true ->
            parse_traffic v = default 0%Z (scaled (remove_char "M" cleaned) 1000000))
        /\ (has_char "K" cleaned = false -> has_char "M" cleaned = false ->
            parse_traffic v = default 0%Z (py_float cleaned ≫= int_of_float)))
  /\ (forall text factor, py_float text = None -> default 0%Z (scaled text factor) = 0%Z)
  /\ (forall text factor f,
        py_float text = Some f ->
        scaled text factor = int_of_float (binary64_mul f (float_of_pos factor)))
  /\ (forall s m e,
        int_of_float (S754_finite s m e)
        = Some (cond_Zopp s (if (0 <=? e)%Z then Zpos m * 2 ^ e else Zpos m / 2 ^ (- e)))%Z)
  /\ int_of_float S754_nan = None
  /\ (forall s, int_of_float (S754_infinity s) = None)
  /\ parse_traffic (Some "74K") = 74000%Z
  /\ parse_traffic (Some "158.1K") = 158100%Z
  /\ parse_traffic (Some "2M") = 2000000%Z
  /\ parse_traffic (Some "") = 0%Z
  /\ parse_traffic None = 0%Z
  /\ parse_traffic (Some "n/a") = 0%Z.
Proof.
  split; [|split; [|split; [|split; [|split]]]].
  - intros v Hb. unfold parse_traffic. rewrite Hb. reflexivity.
  - intros v cleaned Hb ->. unfold parse_traffic. rewrite Hb.
    repeat split.
    + intros HK. rewrite HK. reflexivity.
    + intros HK HM. rewrite HK, HM. reflexivity.
    + intros HK HM. rewrite HK, HM.
      destruct (py_float _); reflexivity.
  - intros text factor H. unfold scaled. rewrite H. reflexivity.
  - intros text factor f H. unfold scaled. rewrite H. reflexivity.
  - exact int_of_float_truncates.
  - repeat split; vm_compute; reflexivity.
Qed.

Lemma parse_traffic_cases_witness :
  parse_traffic (Some " 1,5k ") = default 0%Z (scaled "15" 1000)
  /\ parse_traffic (Some " 1,5k ") = 15000%Z.
Proof.
  split.
  - apply (proj1 (proj1 (proj2 parse_traffic_cases) (Some " 1,5k ") "15K" eq_refl eq_refl)).
    reflexivity.
  - vm_compute. reflexivity.
Defined.

(** Whole thousands and millions come out exact. *)
Lemma parse_traffic_whole_numbers :
  forallb (fun n => (parse_traffic (Some (str_of_nat n +:+ "K")) =? 1000 * Z.of_nat n)%Z)
          (seq 0 1000) = true
  /\ forallb (fun n => (parse_traffic (Some (str_of_nat n +:+ "m")) =? 1000000 * Z.of_nat n)%Z)
             (seq 0 200) = true.
Proof.
  split; vm_compute; reflexivity.
Qed.

(** The product is a binary64 product, truncated: 32.3 * 1000 is just below
    32300 in binary64, and a tenth of a thousand is lost. *)
Lemma parse_traffic_truncates_the_float :
  parse_traffic (Some "32.3K") = 32299%Z
  /\ parse_traffic (Some "1.001K") = 1000%Z
  /\ parse_traffic (Some "-3.7") = (-3)%Z
  /\ parse_traffic (Some "1e400") = 0%Z
  /\ parse_traffic (Some "7K4") = 74000%Z.
Proof.
  repeat split; vm_compute; reflexivity.
Qed.

Lemma blank_spaces_digits (s : string) :
  s <> "" -> all_chars is_digit s = true -> blank (Some s) = false.
Proof.
  intros Hne Hd. unfold blank. simpl falsy_str. simpl text_of.
  rewrite (strip_digits s Hd). destruct s; [congruence | reflexivity].
Qed.

Lemma digit_not_c_space (c : ascii) : is_digit c = true -> is_c_space c = false.
Proof.
  unfold is_digit, is_c_space, between. intros H.
  apply andb_prop in H as [H1 H2].
  apply N.leb_le in H1. apply N.leb_le in H2.
  apply orb_false_iff. split; apply andb_false_iff.
  - right. apply N.leb_gt. lia.
  - right. apply N.leb_gt. lia.
Qed.

Lemma c_strip_digits (s : string) : all_chars is_digit s = true -> c_strip s = s.
Proof.
  intros H. unfold c_strip.
  assert (Hs : all_chars (fun c => negb (is_c_space c)) s = true).
  { apply (all_chars_weaken is_digit); [|exact H].
    intros c Hc. rewrite (digit_not_c_space c Hc). reflexivity. }
  rewrite (lstrip_by_fixed _ _ Hs). apply rstrip_by_fixed. exact Hs.
Qed.

Lemma digit_count_digits (s : string) :
  all_chars is_digit s = true -> digit_count s = String.length s.
Proof.
  induction s as [|c r IH]; simpl; [reflexivity|].
  intros H. apply andb_prop in H as [Hc Hr]. rewrite Hc, (IH Hr). reflexivity.
Qed.

Lemma py_int_of_digits (s : string) :
  all_chars is_digit s = true ->
  py_int s = if (max_str_digits <? String.length s)%nat then None
             else if String.eqb s "" then None else Some (decimal_value s 0).
Proof.
  intros Hd. unfold py_int. rewrite (c_strip_digits s Hd).
  destruct s as [|c r]; [reflexivity|].
  assert (Hc : is_digit c = true) by (simpl in Hd; apply andb_prop in Hd; tauto).
  assert (Hsign : split_sign (String c r) = (false, String c r)).
  { destruct c as [[] [] [] [] [] [] [] []]; try reflexivity; discriminate. }
  rewrite Hsign, (digit_count_digits _ Hd).
  destruct (max_str_digits <? String.length (String c r))%nat; [reflexivity|].
  rewrite int_digits_all_digits; [reflexivity | exact Hd | left; discriminate].
Qed.




(** ** The statement *)

Lemma is_not_none_iff (v : pyval) : is_not_none v = true <-> v <> PNone.
Proof.
  destruct v; simpl; split; intros H; try reflexivity; try discriminate; congruence.
Qed.

Lemma fields_values_combine (data : list (string * pyval)) :
  combine (fields_of data) (values_of data)
  = List.filter (fun kv => is_not_none (snd kv)) data.
Proof.
  unfold fields_of, values_of.
  induction data as [|[k v] r IH]; simpl; [reflexivity|].
  destruct (is_not_none v); simpl; [f_equal|]; exact IH.
Qed.

Lemma fields_values_length (data : list (string * pyval)) :
  length (values_of data) = length (fields_of data).
Proof.
  unfold fields_of, values_of.
  induction data as [|[k v] r IH]; simpl; [reflexivity|].
  destruct (is_not_none v); simpl; [f_equal|]; exact IH.
Qed.

Lemma fields_of_in (data : list (string * pyval)) (k : string) :
  In k (fields_of data) <-> exists v, In (k, v) data /\ v <> PNone.
Proof.
  unfold fields_of. rewrite in_map_iff. split.
  - intros [[k' v] [Hk Hin]]. simpl in Hk. subst k'.
    apply filter_In in Hin as [Hin Hv]. exists v. split; [exact Hin|].
    apply is_not_none_iff. exact Hv.
  - intros [v [Hin Hv]]. exists (k, v). split; [reflexivity|].
    apply filter_In. split; [exact Hin|]. apply is_not_none_iff. exact Hv.
Qed.

Lemma values_of_present (data : list (string * pyval)) (v : pyval) :
  In v (values_of data) -> v <> PNone.
Proof.
  unfold values_of. intros H. apply filter_In in H as [_ H].
  apply is_not_none_iff. exact H.
Qed.

Lemma placeholders_length (n : nat) : length (placeholders_of n) = n.
Proof.
  unfold placeholders_of. rewrite length_map. apply length_seq.
Qed.

Lemma placeholders_nth (n i : nat) :
  i < n -> nth i (placeholders_of n) "" = "$" +:+ str_of_nat (i + 1).
Proof.
  intros Hi. unfold placeholders_of.
  set (mark := fun j => "$" +:+ str_of_nat (j + 1)).
  rewrite (nth_indep _ "" (mark 0)).
  - rewrite (map_nth mark). rewrite seq_nth; [reflexivity | exact Hi].
  - rewrite length_map, length_seq. exact Hi.
Qed.

Lemma insert_website_posts (net : list event -> request -> outcome pyval)
      (row : raw_row) (tr : list event) (website : string) (data : list (string * pyval)) :
  clean_website (row_get row "Magazines") = Some website -> website <> "" ->
  build_data row website = Return data ->
  insert_website net row tr
  = Return (fst (classify_answer (net tr (build_request data))),
            snd (classify_answer (net tr (build_request data))),
            tr ++ [Post (build_request data)]).
Proof.
  intros Hw Hne Hd. unfold insert_website. rewrite Hw.
  destruct website as [|c r]; [congruence|].
  simpl falsy_str. cbv iota. simpl text_of. rewrite Hd. simpl bind.
  destruct (classify_answer _) as [result error]. reflexivity.
Qed.

(** C1: for a record built from a row, the posted statement names exactly
    the fields whose value is present, in the record's order; its
    parameters are those values in the same order, none of them absent; its
    placeholders are $1..$n for the n fields; and it ends in ON CONFLICT
    (website) DO NOTHING RETURNING id, website. *)
Theorem insert_statement_shape
        (net : list event -> request -> outcome pyval)
        (row : raw_row) (tr : list event) (website : string) (data : list (string * pyval)) :
  clean_website (row_get row "Magazines") = Some website -> website <> "" ->
  build_data row website = Return data ->
  let req := build_request data in
  let fields := fields_of data in
  let marks := placeholders_of (length fields) in
  (exists result error, insert_website net row tr = Return (result, error, tr ++ [Post req]))
  /\ (forall k, In k fields <-> exists v, In (k, v) data /\ v <> PNone)
  /\ (forall v, In v (params req) -> v <> PNone)
  /\ combine fields (params req) = List.filter (fun kv => is_not_none (snd kv)) data
  /\ length (params req) = length fields
  /\ length marks = length fields
  /\ (forall i, i < length fields -> nth i marks "" = "$" +:+ str_of_nat (i + 1))
  /\ sql req = "INSERT INTO website_inventory (" +:+ join ", " fields +:+ ") VALUES (" +:+
               join ", " marks +:+ ") ON CONFLICT (website) DO NOTHING RETURNING id, website".
Proof.
  intros Hw Hne Hd req fields marks.
  split; [|split; [|split; [|split; [|split; [|split; [|split]]]]]].
  - eexists. eexists. apply (insert_website_posts net row tr website data Hw Hne Hd).
  - intros k. apply fields_of_in.
  - intros v. apply values_of_present.
  - apply fields_values_combine.
  - apply fields_values_length.
  - apply placeholders_length.
  - intros i Hi. apply placeholders_nth. exact Hi.
  - reflexivity.
Qed.

Lemma insert_statement_shape_witness :
  sql (build_request
         [ ("website", PStr "Example.com"); ("contact", PStr "ads@example.com");
           ("category", PNone); ("da", PInt 40); ("domain_rating", PNone);
           ("organic_traffic", PInt 74000);
           ("client_price", PFloat (S754_finite false 5277655813324800 (-46)));
           ("is_indexed", PBool false); ("do_follow", PBool true); ("news", PBool false);
           ("sponsored", PBool false); ("cbd", PBool false); ("casino", PBool false);
           ("dating", PBool false); ("crypto", PBool false); ("tat", PNone);
           ("status", PStr "active") ])
  = "INSERT INTO website_inventory (website, contact, da, organic_traffic, client_price, is_indexed, do_follow, news, sponsored, cbd, casino, dating, crypto, status) VALUES ($1, $2, $3, $4, $5, $6, $7, $8, $9, $10, $11, $12, $13, $14) ON CONFLICT (website) DO NOTHING RETURNING id, website".
Proof.
  refine (eq_trans
            (proj2 (proj2 (proj2 (proj2 (proj2 (proj2 (proj2
               (insert_statement_shape store_net listing_row [] "Example.com" _ _ _ _))))))))
            _).
  - reflexivity.
  - discriminate.
  - vm_compute. reflexivity.
  - vm_compute. reflexivity.
Defined.

(** ** The columns of a record *)

Lemma parse_price_present (v : option string) : parse_price v <> PNone.
Proof.
  unfold parse_price. destruct (blank v); [discriminate|].
  destruct (py_float _); discriminate.
Qed.

Lemma combine_fields_params (data : list (string * pyval)) (k : string) (v : pyval) :
  In (k, v) (combine (fields_of data) (params (build_request data)))
  <-> In (k, v) data /\ v <> PNone.
Proof.
  unfold build_request. simpl params. rewrite fields_values_combine, filter_In.
  simpl. rewrite is_not_none_iff. reflexivity.
Qed.

(** C10: in a record built from a row, the twelve columns website,
    organic_traffic, client_price, is_indexed, do_follow, news, sponsored,
    cbd, casino, dating, crypto and status are always in the statement,
    each with its value at the same place of the parameter list: a value
    that is 0, 0.0 or false is present, only [None] is absent; a column
    that is left out of the column list or of the parameter list is one of
    contact, category, da, domain_rating and tat, and its value is
    [None]. *)
Theorem always_included (row : raw_row) (website : string) (data : list (string * pyval)) :
  build_data row website = Return data ->
  (forall k, In k always_fields -> In k (fields_of data))
  /\ (forall k, In k (map fst data) -> ~ In k (fields_of data) -> In k optional_fields)
  /\ (forall k v, In (k, v) data -> v <> PNone -> In k (fields_of data))
  /\ is_not_none (PInt 0) = true
  /\ is_not_none (PFloat (S754_zero false)) = true
  /\ is_not_none (PBool false) = true
  /\ map fst data = ["website"; "contact"; "category"; "da"; "domain_rating";
                     "organic_traffic"; "client_price"; "is_indexed"; "do_follow"; "news";
                     "sponsored"; "cbd"; "casino"; "dating"; "crypto"; "tat"; "status"]
  /\ (forall k,
        In k always_fields ->
        exists v, In (k, v) data /\ v <> PNone
                  /\ In (k, v) (combine (fields_of data) (params (build_request data)))
                  /\ In v (params (build_request data)))
  /\ (forall k v,
        In (k, v) data ->
        ~ In (k, v) (combine (fields_of data) (params (build_request data))) ->
        In k optional_fields /\ v = PNone)
  /\ length (params (build_request data)) = length (fields_of data)
  /\ sql (build_request data)
     = sql_of (fields_of data) (placeholders_of (length (fields_of data))).
Proof.
  intros H.
  destruct (build_data_shape row website data H) as (contact & category & _ & _ & ->).
  pose proof (parse_price_present (row_get row "Price")) as Hprice.
  set (da := py_of_int (parse_int (row_get row "DA"))).
  set (dr := py_of_int (parse_int (row_get row "AS"))).
  set (tat := py_of_int (parse_int (row_get row "TAT"))).
  set (price := parse_price (row_get row "Price")) in *.
  set (traffic := parse_traffic (row_get row "New OT")).
  match goal with |- (forall k, _ -> In k (fields_of ?d)) /\ _ => set (data := d) end.
  assert (Hpresent : forall k v, In (k, v) data -> v <> PNone -> In k (fields_of data)).
  { intros k v Hin Hv. apply fields_of_in. exists v. split; assumption. }
  assert (Hvalue : forall k, In k always_fields -> exists v, In (k, v) data /\ v <> PNone).
  { intros k Hk. simpl in Hk.
    repeat (destruct Hk as [<- | Hk]); try contradiction.
    - exists (PStr website). split; [in_list | discriminate].
    - exists (PInt traffic). split; [in_list | discriminate].
    - exists price. split; [in_list | exact Hprice].
    - exists (PBool (parse_bool (row_get row "Indexed"))). split; [in_list | discriminate].
    - exists (PBool (parse_dofollow (row_get row "Do Follow"))). split; [in_list | discriminate].
    - exists (PBool (parse_bool (row_get row "News"))). split; [in_list | discriminate].
    - exists (PBool (parse_bool (row_get row "Sponsored"))). split; [in_list | discriminate].
    - exists (PBool (parse_bool (row_get row "CBD"))). split; [in_list | discriminate].
    - exists (PBool (parse_bool (row_get row "Casino"))). split; [in_list | discriminate].
    - exists (PBool (parse_bool (row_get row "Dating"))). split; [in_list | discriminate].
    - exists (PBool (parse_bool (row_get row "Crypto"))). split; [in_list | discriminate].
    - exists (PStr "active"). split; [in_list | discriminate]. }
  assert (Halways : forall k, In k always_fields -> In k (fields_of data)).
  { intros k Hk. destruct (Hvalue k Hk) as (v & Hin & Hv). apply (Hpresent k v Hin Hv). }
  split; [exact Halways|]. split; [|split; [exact Hpresent|]].
  - intros k Hk Hout. simpl in Hk.
    repeat (destruct Hk as [<- | Hk]); try contradiction;
      first [ solve [in_list] | exfalso; apply Hout; apply Halways; solve [in_list] ].
  - split; [reflexivity|]. split; [reflexivity|]. split; [reflexivity|].
    split; [reflexivity|]. split; [|split; [|split]].
    + intros k Hk. destruct (Hvalue k Hk) as (v & Hin & Hv).
      assert (Hc : In (k, v) (combine (fields_of data) (params (build_request data))))
        by (apply combine_fields_params; split; assumption).
      exists v. split; [exact Hin|]. split; [exact Hv|]. split; [exact Hc|].
      apply (in_combine_r _ _ _ _ Hc).
    + intros k v Hin Hout.
      assert (Hv : v = PNone).
      { destruct v; try reflexivity; exfalso; apply Hout; apply combine_fields_params;
          (split; [exact Hin | discriminate]). }
      split; [|exact Hv]. subst v. simpl in Hin.
      repeat (destruct Hin as [Hin | Hin]); try contradiction;
        try (injection Hin as <-; solve [in_list]); try discriminate Hin.
      injection Hin as _ Hp. exfalso. apply Hprice. exact Hp.
    + apply fields_values_length.
    + reflexivity.
Qed.

Lemma always_included_witness :
  exists v,
    In ("client_price", v)
       [ ("website", PStr "Example.com"); ("contact", PNone); ("category", PNone);
         ("da", PNone); ("domain_rating", PNone); ("organic_traffic", PInt 0);
         ("client_price", PInt 0); ("is_indexed", PBool false);
         ("do_follow", PBool true); ("news", PBool false);
         ("sponsored", PBool false); ("cbd", PBool false);
         ("casino", PBool false); ("dating", PBool false);
         ("crypto", PBool false); ("tat", PNone); ("status", PStr "active") ]
    /\ v <> PNone
    /\ In ("client_price", v)
          (combine
             (fields_of
                [ ("website", PStr "Example.com"); ("contact", PNone); ("category", PNone);
                  ("da", PNone); ("domain_rating", PNone); ("organic_traffic", PInt 0);
                  ("client_price", PInt 0); ("is_indexed", PBool false);
                  ("do_follow", PBool true); ("news", PBool false);
                  ("sponsored", PBool false); ("cbd", PBool false);
                  ("casino", PBool false); ("dating", PBool false);
                  ("crypto", PBool false); ("tat", PNone); ("status", PStr "active") ])
             (params
                (build_request
                   [ ("website", PStr "Example.com"); ("contact", PNone); ("category", PNone);
                     ("da", PNone); ("domain_rating", PNone); ("organic_traffic", PInt 0);
                     ("client_price", PInt 0); ("is_indexed", PBool false);
                     ("do_follow", PBool true); ("news", PBool false);
                     ("sponsored", PBool false); ("cbd", PBool false);
                     ("casino", PBool false); ("dating", PBool false);
                     ("crypto", PBool false); ("tat", PNone); ("status", PStr "active") ])))
    /\ In v
          (params
             (build_request
                [ ("website", PStr "Example.com"); ("contact", PNone); ("category", PNone);
                  ("da", PNone); ("domain_rating", PNone); ("organic_traffic", PInt 0);
                  ("client_price", PInt 0); ("is_indexed", PBool false);
                  ("do_follow", PBool true); ("news", PBool false);
                  ("sponsored", PBool false); ("cbd", PBool false);
                  ("casino", PBool false); ("dating", PBool false);
                  ("crypto", PBool false); ("tat", PNone); ("status", PStr "active") ])).
Proof.
  refine (proj1 (proj2 (proj2 (proj2 (proj2 (proj2 (proj2 (proj2
            (always_included bare_row "Example.com" _ _)))))))) "client_price" _).
  - vm_compute. reflexivity.
  - in_list.
Defined.

(** All five optional columns can be missing at once: the statement then
    names the twelve others, zero and false among their values. *)
Lemma bare_row_fields :
  exists data,
    build_data bare_row "Example.com" = Return data
    /\ fields_of data = always_fields
    /\ values_of data = [PStr "Example.com"; PInt 0; PInt 0; PBool false; PBool true;
                         PBool false; PBool false; PBool false; PBool false; PBool false;
                         PBool false; PStr "active"].
Proof.
  eexists. split; [vm_compute; reflexivity|]. split; reflexivity.
Qed.

(** ** The endpoint's answers *)

Lemma classify_answer_raise (answer : outcome pyval) (e : exc) :
  read_answer answer = Raise e -> classify_answer answer = (PNone, PStr (exc_text e)).
Proof.
  unfold classify_answer, try_except. intros ->. reflexivity.
Qed.

Lemma read_answer_one_sided (answer : outcome pyval) (result error : pyval) :
  read_answer answer = Return (result, error) -> result = PNone \/ error = PNone.
Proof.
  unfold read_answer, bind.
  destruct answer as [body|]; [|discriminate].
  destruct (py_get body "success" PNone) as [success|]; [|discriminate].
  destruct (truthy success).
  - destruct (py_get body "rowCount" (PInt 0)) as [count|]; [|discriminate].
    destruct (py_gt_zero count) as [[|]|]; try discriminate.
    + destruct (py_item body "rows") as [rows|]; [|discriminate].
      destruct (py_first rows); [|discriminate].
      intros H. injection H as <- <-. right. reflexivity.
    + intros H. injection H as <- <-. left. reflexivity.
  - destruct (py_get body "error" (PStr "Unknown error")); [|discriminate].
    intros H. injection H as <- <-. left. reflexivity.
Qed.

Lemma classify_answer_one_sided (answer : outcome pyval) :
  fst (classify_answer answer) = PNone \/ snd (classify_answer answer) = PNone.
Proof.
  unfold classify_answer, try_except.
  destruct (read_answer answer) as [[result error]|e] eqn:E.
  - apply (read_answer_one_sided answer). exact E.
  - left. reflexivity.
Qed.

(** C2: once the request is built, [insert_website] returns whatever the
    endpoint answers, it does not raise.  An answer with a true [success],
    a positive [rowCount] and a first row gives that row and no error; a
    true [success] with a zero or missing [rowCount] gives the duplicate
    notice; a false [success] gives the answer's [error] unchanged; a
    failure of the transport, or any exception while the answer is read,
    gives the text of the exception as the error. *)
Theorem answer_classification
        (net : list event -> request -> outcome pyval)
        (row : raw_row) (tr : list event) (website : string) (data : list (string * pyval)) :
  clean_website (row_get row "Magazines") = Some website -> website <> "" ->
  build_data row website = Return data ->
  insert_website net row tr
  = Return (fst (classify_answer (net tr (build_request data))),
            snd (classify_answer (net tr (build_request data))),
            tr ++ [Post (build_request data)])
  /\ (forall d success n first rest,
        dict_lookup "success" d = Some success -> truthy success = true ->
        dict_lookup "rowCount" d = Some (PInt n) -> (0 < n)%Z ->
        dict_lookup "rows" d = Some (PList (first :: rest)) ->
        classify_answer (Return (PDict d)) = (first, PNone))
  /\ (forall d success,
        dict_lookup "success" d = Some success -> truthy success = true ->
        dict_lookup "rowCount" d = Some (PInt 0) \/ dict_lookup "rowCount" d = None ->
        classify_answer (Return (PDict d)) = (PNone, PStr "Duplicate (skipped)"))
  /\ (forall d success error,
        dict_lookup "success" d = Some success -> truthy success = false ->
        dict_lookup "error" d = Some error ->
        classify_answer (Return (PDict d)) = (PNone, error))
  /\ (forall e, classify_answer (Raise e) = (PNone, PStr (exc_text e)))
  /\ (forall answer e,
        read_answer answer = Raise e -> classify_answer answer = (PNone, PStr (exc_text e)))
  /\ (forall answer,
        fst (classify_answer answer) = PNone \/ snd (classify_answer answer) = PNone).
Proof.
  intros Hw Hne Hd.
  split; [|split; [|split; [|split; [|split; [|split]]]]].
  - apply (insert_website_posts net row tr website data Hw Hne Hd).
  - intros d success n first rest Hs Ht Hc Hn Hr.
    unfold classify_answer, read_answer. simpl. rewrite Hs. simpl. rewrite Ht.
    rewrite Hc. simpl.
    assert (Hpos : (0 <? n)%Z = true) by (apply Z.ltb_lt; exact Hn).
    rewrite Hpos. rewrite Hr. reflexivity.
  - intros d success Hs Ht Hc.
    unfold classify_answer, read_answer. simpl. rewrite Hs. simpl. rewrite Ht.
    destruct Hc as [Hc | Hc]; rewrite Hc; reflexivity.
  - intros d success error Hs Ht He.
    unfold classify_answer, read_answer. simpl. rewrite Hs. simpl. rewrite Ht.
    rewrite He. reflexivity.
  - intros e. reflexivity.
  - exact classify_answer_raise.
  - exact classify_answer_one_sided.
Qed.

Lemma answer_classification_witness :
  insert_website store_net listing_row []
  = Return (PDict [("id", PInt 1); ("website", PStr "Example.com")], PNone,
            [Post (build_request
                     [ ("website", PStr "Example.com"); ("contact", PStr "ads@example.com");
                       ("category", PNone); ("da", PInt 40); ("domain_rating", PNone);
                       ("organic_traffic", PInt 74000);
                       ("client_price", PFloat (S754_finite false 5277655813324800 (-46)));
                       ("is_indexed", PBool false); ("do_follow", PBool true);
                       ("news", PBool false); ("sponsored", PBool false);
                       ("cbd", PBool false); ("casino", PBool false);
                       ("dating", PBool false); ("crypto", PBool false); ("tat", PNone);
                       ("status", PStr "active") ])]).
Proof.
  refine (eq_trans
            (proj1 (answer_classification store_net listing_row [] "Example.com" _ _ _ _))
            _).
  - reflexivity.
  - discriminate.
  - vm_compute. reflexivity.
  - vm_compute. reflexivity.
Defined.

(** Answers that are not as documented are failures too, not exceptions. *)
Lemma odd_answers :
  classify_answer (Return (PList [])) = (PNone, PStr "'list' object has no attribute 'get'")
  /\ classify_answer (Return (PDict [("success", PBool true); ("rowCount", PInt 1)]))
     = (PNone, PStr "'rows'")
  /\ classify_answer (Return (PDict [("success", PBool true); ("rowCount", PInt 1);
                                     ("rows", PList [])]))
     = (PNone, PStr "list index out of range")
  /\ classify_answer (Return (PDict [("success", PBool true); ("rowCount", PStr "1")]))
     = (PNone, PStr "'>' not supported between instances of 'str' and 'int'")
  /\ classify_answer (Return (PDict [("success", PBool false)])) = (PNone, PStr "Unknown error")
  /\ classify_answer (down_net [] (Request "" [])) = (PNone, PStr "Connection refused").
Proof.
  repeat split.
Qed.

(** ** The row loop *)

Lemma posts_app (a b : list event) : posts (a ++ b) = posts a + posts b.
Proof.
  unfold posts. rewrite List.filter_app, List.length_app. reflexivity.
Qed.

Lemma cooldowns_app (a b : list event) : cooldowns (a ++ b) = cooldowns a + cooldowns b.
Proof.
  unfold cooldowns. rewrite List.filter_app, List.length_app. reflexivity.
Qed.



Lemma attempts_unfold (net : list event -> request -> outcome pyval)
      (n : nat) (row : raw_row) (r0 e0 : pyval) (tr : list event) :
  attempts net (S n) row r0 e0 tr
  = bind (insert_website net row tr)
         (fun x => let '(r, e, tr') := x in
                   bind (rate_limited e)
                        (fun limited =>
                           if limited then attempts net n row r e (tr' ++ [Sleep cooldown_ms])
                           else Return (r, e, tr'))).
Proof.
  reflexivity.
Qed.






(** A row turned away three times is one error, with the last message. *)
Lemma rate_limited_three_times :
  exists st',
    process_row (busy_net 3) 6 bare_row (Run 4 1 1 [] []) = Return st'
    /\ success_count st' = 4 /\ skip_count st' = 1 /\ error_count st' = 2
    /\ errors st' = [ErrorLine 7 (Some "Example.com")
                               (PStr "Too many requests, please try again later")]
    /\ posts (log st') = 3 /\ cooldowns (log st') = 3.
Proof.
  eexists. split; [vm_compute; reflexivity|]. vm_compute. repeat split.
Qed.

(** ** Rows without a website *)




(** ** The counters *)

Lemma tally_cases (i : nat) (row : raw_row) (st : run) (result error : pyval)
      (tr : list event) :
  tally i row st result error tr = count_success st tr
  \/ tally i row st result error tr = count_skip st tr
  \/ exists line, tally i row st result error tr = count_error st tr line.
Proof.
  unfold tally. destruct (truthy result); [left; reflexivity|].
  destruct (is_duplicate error); [right; left; reflexivity|].
  right. right. eexists. reflexivity.
Qed.

Lemma process_row_cases (net : list event -> request -> outcome pyval)
      (i : nat) (row : raw_row) (st st' : run) :
  process_row net i row st = Return st' ->
  exists tr, st' = count_success st tr \/ st' = count_skip st tr
             \/ exists line, st' = count_error st tr line.
Proof.
  unfold process_row.
  destruct (falsy_str _ || String.eqb _ _).
  - intros H. injection H as <-. eexists. right. left. reflexivity.
  - unfold bind.
    destruct (attempts net retries row PNone PNone _) as [[[r e] tr]|]; [|discriminate].
    intros H. injection H as <-. exists tr.
    destruct (tally_cases i row st r e tr) as [-> | [-> | [line ->]]].
    + left. reflexivity.
    + right. left. reflexivity.
    + right. right. exists line. reflexivity.
Qed.

Lemma process_row_counts_one (net : list event -> request -> outcome pyval)
      (i : nat) (row : raw_row) (st st' : run) :
  process_row net i row st = Return st' ->
  (success_count st' = success_count st + 1 /\ skip_count st' = skip_count st
   /\ error_count st' = error_count st)
  \/ (success_count st' = success_count st /\ skip_count st' = skip_count st + 1
      /\ error_count st' = error_count st)
  \/ (success_count st' = success_count st /\ skip_count st' = skip_count st
      /\ error_count st' = error_count st + 1).
Proof.
  intros H. apply process_row_cases in H as [tr [-> | [-> | [line ->]]]].
  - left. repeat split.
  - right. left. repeat split.
  - right. right. repeat split.
Qed.

Lemma rows_loop_counted (net : list event -> request -> outcome pyval) (start : Z)
      (rows : list raw_row) :
  forall i st st',
    rows_loop net start rows i st = Return st' ->
    counted st' = counted st + (length rows - (Z.to_nat start - i)).
Proof.
  induction rows as [|row rest IH]; intros i st st' H; simpl in H.
  - injection H as <-. simpl. lia.
  - destruct (Z.of_nat i <? start)%Z eqn:Hi.
    + apply Z.ltb_lt in Hi. apply IH in H. rewrite H. simpl length. lia.
    + apply Z.ltb_ge in Hi. unfold bind in H.
      destruct (process_row net i row st) as [st1|] eqn:Hp; [|discriminate].
      apply IH in H. rewrite H.
      apply process_row_counts_one in Hp. unfold counted. simpl length. lia.
Qed.

Lemma rows_loop_before_offset (net : list event -> request -> outcome pyval) (start : Z)
      (rows : list raw_row) :
  forall i st,
    (Z.of_nat (i + length rows) <= start)%Z -> rows_loop net start rows i st = Return st.
Proof.
  induction rows as [|row rest IH]; intros i st H; simpl; [reflexivity|].
  simpl length in H.
  assert (Hi : (Z.of_nat i <? start)%Z = true) by (apply Z.ltb_lt; lia).
  rewrite Hi. apply IH. simpl. lia.
Qed.

Lemma rows_at_or_after (start : Z) (n : nat) :
  forall i,
    length (List.filter (fun j => (start <=? Z.of_nat j)%Z) (seq i n))
    = n - (Z.to_nat start - i).
Proof.
  induction n as [|n IH]; intros i; simpl; [reflexivity|].
  destruct (start <=? Z.of_nat i)%Z eqn:Hi.
  - apply Z.leb_le in Hi. simpl. rewrite IH. lia.
  - apply Z.leb_gt in Hi. rewrite IH. lia.
Qed.

Lemma row_get_full (row : raw_row) (key : string) :
  full_row row -> exists s, row_get row key = Some s.
Proof.
  intros H. unfold row_get. specialize (H key).
  destruct (row !! key) as [[s|]|]; simpl.
  - exists s. reflexivity.
  - congruence.
  - exists "". reflexivity.
Qed.

Lemma build_data_total (row : raw_row) (website : string) :
  full_row row -> exists data, build_data row website = Return data.
Proof.
  intros H. unfold build_data.
  destruct (row_get_full row "Contact" H) as [c ->].
  destruct (row_get_full row "Category/Section" H) as [g ->].
  simpl. eexists. reflexivity.
Qed.

Lemma classify_answer_textual (net : list event -> request -> outcome pyval)
      (tr : list event) (req : request) :
  textual_errors net -> textual (snd (classify_answer (net tr req))) = true.
Proof.
  intros H. unfold classify_answer, try_except, read_answer, bind.
  destruct (net tr req) as [body|e] eqn:E; [|reflexivity].
  destruct body as [ | | | | | |d]; try reflexivity.
  simpl py_get. cbv iota.
  destruct (truthy (default PNone (dict_lookup "success" d))).
  - destruct (py_gt_zero _) as [[|]|]; try reflexivity.
    destruct (py_item _ _); [|reflexivity].
    destruct (py_first _); reflexivity.
  - destruct (dict_lookup "error" d) as [e|] eqn:He; simpl; [|reflexivity].
    apply (H tr req d e E He).
Qed.

Lemma rate_limited_textual (e : pyval) :
  textual e = true -> exists limited, rate_limited e = Return limited.
Proof.
  destruct e; simpl; try discriminate; intros _.
  - eexists. reflexivity.
  - unfold rate_limited. destruct (truthy (PStr s)); eexists; reflexivity.
Qed.

Lemma insert_website_total (net : list event -> request -> outcome pyval)
      (row : raw_row) (tr : list event) :
  textual_errors net -> full_row row ->
  exists result error tr',
    insert_website net row tr = Return (result, error, tr') /\ textual error = true.
Proof.
  intros Hn Hr. unfold insert_website.
  destruct (falsy_str (clean_website (row_get row "Magazines"))).
  - do 3 eexists. split; reflexivity.
  - destruct (build_data_total row (text_of (clean_website (row_get row "Magazines"))) Hr)
      as [data ->].
    simpl bind.
    pose proof (classify_answer_textual net tr (build_request data) Hn) as Ht.
    destruct (classify_answer (net tr (build_request data))) as [r e].
    do 3 eexists. split; [reflexivity | exact Ht].
Qed.

Lemma attempts_total (net : list event -> request -> outcome pyval) (row : raw_row) (n : nat) :
  textual_errors net -> full_row row ->
  forall r0 e0 tr, exists res, attempts net n row r0 e0 tr = Return res.
Proof.
  intros Hn Hr. induction n as [|n IH]; intros r0 e0 tr.
  - eexists. reflexivity.
  - rewrite attempts_unfold.
    destruct (insert_website_total net row tr Hn Hr) as (r & e & tr' & -> & Ht).
    destruct (rate_limited_textual e Ht) as [limited Hl].
    unfold bind. rewrite Hl. destruct limited.
    + apply IH.
    + eexists. reflexivity.
Qed.

Lemma process_row_total (net : list event -> request -> outcome pyval)
      (i : nat) (row : raw_row) (st : run) :
  textual_errors net -> full_row row -> exists st', process_row net i row st = Return st'.
Proof.
  intros Hn Hr. unfold process_row.
  destruct (falsy_str _ || String.eqb _ _).
  - eexists. reflexivity.
  - destruct (attempts_total net row retries Hn Hr PNone PNone (log st ++ [Sleep pace_ms]))
      as [[[r e] tr] ->].
    eexists. reflexivity.
Qed.

Lemma rows_loop_total (net : list event -> request -> outcome pyval) (start : Z)
      (rows : list raw_row) :
  textual_errors net -> Forall full_row rows ->
  forall i st, exists st', rows_loop net start rows i st = Return st'.
Proof.
  intros Hn Hr. induction Hr as [|row rest Hrow _ IH]; intros i st; simpl.
  - eexists. reflexivity.
  - destruct (Z.of_nat i <? start)%Z; [apply IH|].
    destruct (process_row_total net i row st Hn Hrow) as [st1 ->].
    simpl. apply IH.
Qed.

(** X16: in a run that comes to its end, a row at or after the resume
    offset adds one to exactly one of the three counters, and the rows
    before the offset change nothing; so the run has counted, in successes,
    skips and errors together, the rows at an index at or after the offset.
    A run comes to its end when no line of the input is short of columns
    and the endpoint's errors are text. *)
Theorem every_row_counted_once (net : list event -> request -> outcome pyval) :
  (forall i row st st',
      process_row net i row st = Return st' ->
      (success_count st' = success_count st + 1 /\ skip_count st' = skip_count st
       /\ error_count st' = error_count st)
      \/ (success_count st' = success_count st /\ skip_count st' = skip_count st + 1
          /\ error_count st' = error_count st)
      \/ (success_count st' = success_count st /\ skip_count st' = skip_count st
          /\ error_count st' = error_count st + 1))
  /\ (forall start rows i st,
        (Z.of_nat (i + length rows) <= start)%Z -> rows_loop net start rows i st = Return st)
  /\ (forall start rows st',
        main net start rows = Return st' ->
        success_count st' + skip_count st' + error_count st'
        = length (List.filter (fun j => (start <=? Z.of_nat j)%Z) (seq 0 (length rows))))
  /\ (textual_errors net ->
      forall start rows, Forall full_row rows -> exists st', main net start rows = Return st').
Proof.
  split; [|split; [|split]].
  - apply process_row_counts_one.
  - intros start rows. apply rows_loop_before_offset.
  - intros start rows st' H. unfold main in H.
    apply rows_loop_counted in H. unfold counted in H. simpl in H.
    rewrite rows_at_or_after. lia.
  - intros Hn start rows Hr. unfold main. apply rows_loop_total; assumption.
Qed.

Lemma every_row_counted_once_witness :
  exists st',
    main store_net 0 [listing_row; bare_row; blank_row] = Return st'
    /\ success_count st' = 1 /\ skip_count st' = 2 /\ error_count st' = 0
    /\ success_count st' + skip_count st' + error_count st'
       = length (List.filter (fun j => (0 <=? Z.of_nat j)%Z) (seq 0 3)).
Proof.
  eexists. split; [vm_compute; reflexivity|].
  split; [reflexivity|]. split; [reflexivity|]. split; [reflexivity|].
  apply (proj1 (proj2 (proj2 (every_row_counted_once store_net)))
           0%Z [listing_row; bare_row; blank_row]).
  vm_compute. reflexivity.
Defined.

(** A run resumed at row 2 of four counts the last two rows only. *)
Lemma resumed_run :
  exists st',
    main store_net 2 [listing_row; protocol_only_row; bare_row; bare_row] = Return st'
    /\ success_count st' = 1 /\ skip_count st' = 1 /\ error_count st' = 0
    /\ posts (log st') = 2.
Proof.
  eexists. split; [vm_compute; reflexivity|]. vm_compute. repeat split.
Qed.

(** A line short of columns stops the run: the exception leaves the loop. *)
Lemma short_line_stops_the_run :
  main store_net 0 [<["Contact" := None]> bare_row; bare_row]
  = Raise (Exc "AttributeError" "'NoneType' object has no attribute 'strip'").
Proof.
  vm_compute. reflexivity.
Qed.

(** C9: a row with a website whose line is short of the Contact column is
    counted by no counter, whatever the endpoint: [row.get('Contact',
    '').strip()] is called on [None] outside the [try], the exception
    leaves [insert_website] and the loop, and the run has no end at which
    the three counters could add up to the rows at or after the offset.
    The other readers of the row take [None] for blank; this one does
    not. *)
Theorem short_line_counts_no_row
        (net : list event -> request -> outcome pyval) (i : nat) (st : run)
        (rest : list raw_row) :
  row_get short_row "Contact" = None
  /\ parse_int (row_get short_row "Contact") = None
  /\ process_row net i short_row st
     = Raise (Exc "AttributeError" "'NoneType' object has no attribute 'strip'")
  /\ main net 0 (short_row :: rest)
     = Raise (Exc "AttributeError" "'NoneType' object has no attribute 'strip'")
  /\ (forall st', main net 0 (short_row :: rest) <> Return st').
Proof.
  assert (Hrow : forall j st0, process_row net j short_row st0
                 = Raise (Exc "AttributeError" "'NoneType' object has no attribute 'strip'")).
  { intros j st0. unfold process_row.
    assert (Hskip : falsy_str (default None (short_row !! "Magazines"))
                    || String.eqb (strip (text_of (row_get short_row "Magazines"))) ""
                    = false) by reflexivity.
    rewrite Hskip. unfold retries. rewrite attempts_unfold.
    assert (Hins : forall tr, insert_website net short_row tr
                   = Raise (Exc "AttributeError" "'NoneType' object has no attribute 'strip'"))
      by (intros tr; reflexivity).
    rewrite Hins. reflexivity. }
  assert (Hmain : main net 0 (short_row :: rest)
                  = Raise (Exc "AttributeError" "'NoneType' object has no attribute 'strip'")).
  { unfold main. simpl rows_loop. rewrite Hrow. reflexivity. }
  split; [reflexivity|]. split; [reflexivity|]. split; [apply Hrow|].
  split; [exact Hmain|]. intros st' H. rewrite Hmain in H. discriminate.
Qed.

(** * Further properties of the normalisers *)

(** ** Letter case and white space *)

Lemma case_chars (c : ascii) :
  lower_char (upper_char c) = lower_char c
  /\ upper_char (lower_char c) = upper_char c
  /\ upper_char (upper_char c) = upper_char c
  /\ lower_char (lower_char c) = lower_char c
  /\ is_space (upper_char c) = is_space c
  /\ is_space (lower_char c) = is_space c
  /\ Ascii.eqb (upper_char c) "," = Ascii.eqb c ",".
Proof.
  destruct c as [[] [] [] [] [] [] [] []]; repeat split.
Qed.

Lemma map_string_compose (f g : ascii -> ascii) (s : string) :
  map_string f (map_string g s) = map_string (fun c => f (g c)) s.
Proof.
  induction s as [|c r IH]; simpl; [reflexivity|]. rewrite IH. reflexivity.
Qed.

Lemma map_string_ext (f g : ascii -> ascii) (s : string) :
  (forall c, f c = g c) -> map_string f s = map_string g s.
Proof.
  intros H. induction s as [|c r IH]; simpl; [reflexivity|]. rewrite H, IH. reflexivity.
Qed.

Lemma lstrip_by_map (p : ascii -> bool) (f : ascii -> ascii) (s : string) :
  (forall c, p (f c) = p c) -> lstrip_by p (map_string f s) = map_string f (lstrip_by p s).
Proof.
  intros H. induction s as [|c r IH]; simpl; [reflexivity|].
  rewrite H. destruct (p c); [exact IH | reflexivity].
Qed.

Lemma rstrip_by_map (p : ascii -> bool) (f : ascii -> ascii) (s : string) :
  (forall c, p (f c) = p c) -> rstrip_by p (map_string f s) = map_string f (rstrip_by p s).
Proof.
  intros H. induction s as [|c r IH]; simpl; [reflexivity|].
  rewrite IH, H. destruct (rstrip_by p r); simpl; [|reflexivity].
  destruct (p c); reflexivity.
Qed.

Lemma strip_map (f : ascii -> ascii) (s : string) :
  (forall c, is_space (f c) = is_space c) -> strip (map_string f s) = map_string f (strip s).
Proof.
  intros H. unfold strip. rewrite lstrip_by_map by exact H. apply rstrip_by_map. exact H.
Qed.

Lemma eqb_empty_map (f : ascii -> ascii) (s : string) :
  String.eqb (map_string f s) "" = String.eqb s "".
Proof.
  destruct s; reflexivity.
Qed.

Lemma lower_upper (s : string) : lower (upper s) = lower s.
Proof.
  unfold lower, upper. rewrite map_string_compose. apply map_string_ext.
  intros c. apply (case_chars c).
Qed.

Lemma upper_lower (s : string) : upper (lower s) = upper s.
Proof.
  unfold lower, upper. rewrite map_string_compose. apply map_string_ext.
  intros c. apply (case_chars c).
Qed.

Lemma upper_upper (s : string) : upper (upper s) = upper s.
Proof.
  unfold upper. rewrite map_string_compose. apply map_string_ext.
  intros c. apply (case_chars c).
Qed.

Lemma lower_lower (s : string) : lower (lower s) = lower s.
Proof.
  unfold lower. rewrite map_string_compose. apply map_string_ext.
  intros c. apply (case_chars c).
Qed.

Lemma strip_upper (s : string) : strip (upper s) = upper (strip s).
Proof.
  apply strip_map. intros c. apply (case_chars c).
Qed.

Lemma strip_lower (s : string) : strip (lower s) = lower (strip s).
Proof.
  apply strip_map. intros c. apply (case_chars c).
Qed.

Lemma blank_map (f : ascii -> ascii) (s : string) :
  (forall c, is_space (f c) = is_space c) ->
  blank (Some (map_string f s)) = blank (Some s).
Proof.
  intros H. unfold blank. simpl. rewrite strip_map by exact H.
  rewrite !eqb_empty_map. reflexivity.
Qed.

Lemma lstrip_by_head (p : ascii -> bool) (s : string) :
  lstrip_by p s = "" \/ exists c r, lstrip_by p s = String c r /\ p c = false.
Proof.
  induction s as [|c r IH]; simpl; [left; reflexivity|].
  destruct (p c) eqn:Hc; [exact IH|]. right. exists c, r. split; [reflexivity | exact Hc].
Qed.

Lemma rstrip_by_keeps_head (p : ascii -> bool) (c : ascii) (r : string) :
  p c = false -> exists r', rstrip_by p (String c r) = String c r'.
Proof.
  intros Hc. simpl. destruct (rstrip_by p r) as [|d r'].
  - rewrite Hc. exists "". reflexivity.
  - exists (String d r'). reflexivity.
Qed.

Lemma rstrip_by_idem (p : ascii -> bool) (s : string) :
  rstrip_by p (rstrip_by p s) = rstrip_by p s.
Proof.
  induction s as [|c r IH]; simpl; [reflexivity|].
  destruct (rstrip_by p r) as [|d r'] eqn:E.
  - destruct (p c) eqn:Hc; simpl; [reflexivity|]. rewrite Hc. reflexivity.
  - change (rstrip_by p (String c (String d r')))
      with (match rstrip_by p (String d r') with
            | EmptyString => if p c then EmptyString else String c EmptyString
            | String a b => String c (String a b)
            end).
    rewrite IH. reflexivity.
Qed.

Lemma strip_idem (s : string) : strip (strip s) = strip s.
Proof.
  unfold strip.
  destruct (lstrip_by_head is_space s) as [-> | (c & r & -> & Hc)]; [reflexivity|].
  destruct (rstrip_by_keeps_head is_space c r Hc) as [r' Hr].
  rewrite Hr. simpl lstrip_by. rewrite Hc. rewrite <- Hr. apply rstrip_by_idem.
Qed.

Lemma lstrip_by_empty (p : ascii -> bool) (s : string) :
  lstrip_by p s = "" <-> all_chars p s = true.
Proof.
  induction s as [|c r IH]; simpl; [tauto|].
  destruct (p c); simpl; [exact IH|]. split; discriminate.
Qed.

Lemma strip_empty (s : string) : strip s = "" <-> all_chars is_space s = true.
Proof.
  unfold strip. rewrite <- lstrip_by_empty. split.
  - intros H. destruct (lstrip_by_head is_space s) as [E | (c & r & E & Hc)]; [exact E|].
    rewrite E in H. destruct (rstrip_by_keeps_head is_space c r Hc) as [r' Hr].
    rewrite Hr in H. discriminate.
  - intros ->. reflexivity.
Qed.

Lemma blank_spaces (s : string) : blank (Some s) = all_chars is_space s.
Proof.
  unfold blank. simpl.
  destruct (all_chars is_space s) eqn:E.
  - apply strip_empty in E. rewrite E. apply orb_true_r.
  - destruct s as [|c r]; [discriminate|]. simpl orb.
    destruct (String.eqb (strip (String c r)) "") eqn:F; [|reflexivity].
    apply String.eqb_eq in F. apply strip_empty in F. congruence.
Qed.

Lemma blank_strip (s : string) : blank (Some (strip s)) = blank (Some s).
Proof.
  unfold blank. simpl falsy_str. simpl text_of. rewrite strip_idem.
  destruct (String.eqb (strip s) "") eqn:E.
  - rewrite !orb_true_r. reflexivity.
  - destruct s; [discriminate | reflexivity].
Qed.

(** ** Removed characters *)

Lemma remove_char_idem (old : ascii) (s : string) :
  remove_char old (remove_char old s) = remove_char old s.
Proof.
  induction s as [|c r IH]; simpl; [reflexivity|].
  destruct (Ascii.eqb c old) eqn:E; [exact IH|]. simpl. rewrite E, IH. reflexivity.
Qed.

Lemma remove_char_comm (a b : ascii) (s : string) :
  remove_char a (remove_char b s) = remove_char b (remove_char a s).
Proof.
  induction s as [|c r IH]; simpl; [reflexivity|].
  destruct (Ascii.eqb c b) eqn:Eb; destruct (Ascii.eqb c a) eqn:Ea; simpl;
    rewrite ?Ea, ?Eb, IH; reflexivity.
Qed.

Lemma remove_char_spaces (old : ascii) (s : string) :
  is_space old = false -> all_chars is_space s = true -> remove_char old s = s.
Proof.
  intros Ho. induction s as [|c r IH]; simpl; [reflexivity|].
  intros H. apply andb_prop in H as [Hc Hr].
  destruct (Ascii.eqb c old) eqn:E.
  - apply Ascii.eqb_eq in E. congruence.
  - rewrite (IH Hr). reflexivity.
Qed.

Lemma remove_char_upper_comma (s : string) :
  remove_char "," (upper s) = upper (remove_char "," s).
Proof.
  unfold upper. induction s as [|c r IH]; simpl; [reflexivity|].
  replace (Ascii.eqb (upper_char c) ",") with (Ascii.eqb c ",") by (symmetry; apply (case_chars c)).
  destruct (Ascii.eqb c ","); simpl; rewrite IH; reflexivity.
Qed.

(** ** The flags *)

(** X1: for ASCII text the yes/no columns and the traffic column are read
    without regard to letter case: a text, its upper-case form and its
    lower-case form give the same [parse_bool], [parse_dofollow] and
    [parse_traffic]. *)
Theorem normalisers_ignore_case (s : string) :
  ascii_text s = true ->
  parse_bool (Some (upper s)) = parse_bool (Some s)
  /\ parse_bool (Some (lower s)) = parse_bool (Some s)
  /\ parse_dofollow (Some (upper s)) = parse_dofollow (Some s)
  /\ parse_dofollow (Some (lower s)) = parse_dofollow (Some s)
  /\ parse_traffic (Some (upper s)) = parse_traffic (Some s)
  /\ parse_traffic (Some (lower s)) = parse_traffic (Some s).
Proof.
  intros _.
  assert (Hu : forall c, is_space (upper_char c) = is_space c) by (intros c; apply (case_chars c)).
  assert (Hl : forall c, is_space (lower_char c) = is_space c) by (intros c; apply (case_chars c)).
  repeat split.
  - unfold parse_bool. simpl falsy_str. simpl text_of. unfold upper at 1.
    rewrite eqb_empty_map, strip_upper, lower_upper. reflexivity.
  - unfold parse_bool. simpl falsy_str. simpl text_of. unfold lower at 1.
    rewrite eqb_empty_map, strip_lower, lower_lower. reflexivity.
  - unfold parse_dofollow. simpl falsy_str. simpl text_of. unfold upper at 1.
    rewrite eqb_empty_map, strip_upper, lower_upper. reflexivity.
  - unfold parse_dofollow. simpl falsy_str. simpl text_of. unfold lower at 1.
    rewrite eqb_empty_map, strip_lower, lower_lower. reflexivity.
  - unfold parse_traffic. simpl text_of. unfold upper at 1.
    rewrite (blank_map upper_char s Hu). fold (upper s). rewrite upper_upper. reflexivity.
  - unfold parse_traffic. simpl text_of. unfold lower at 1.
    rewrite (blank_map lower_char s Hl). fold (lower s). rewrite upper_lower. reflexivity.
Qed.

Lemma normalisers_ignore_case_witness :
  parse_bool (Some (upper " Yes ")) = parse_bool (Some " Yes ")
  /\ parse_bool (Some (lower " Yes ")) = parse_bool (Some " Yes ")
  /\ parse_dofollow (Some (upper " Yes ")) = parse_dofollow (Some " Yes ")
  /\ parse_dofollow (Some (lower " Yes ")) = parse_dofollow (Some " Yes ")
  /\ parse_traffic (Some (upper " Yes ")) = parse_traffic (Some " Yes ")
  /\ parse_traffic (Some (lower " Yes ")) = parse_traffic (Some " Yes ").
Proof.
  apply (normalisers_ignore_case " Yes "). reflexivity.
Defined.

Lemma separator_free_space (c : ascii) :
  negb (between 28 31 c) = true -> is_space c = is_c_space c.
Proof.
  destruct c as [[] [] [] [] [] [] [] []]; intros H; vm_compute in H;
    try discriminate H; reflexivity.
Qed.

Lemma lstrip_by_agree (p q : ascii -> bool) (s : string) :
  all_chars (fun c => Bool.eqb (p c) (q c)) s = true ->
  lstrip_by p s = lstrip_by q s
  /\ all_chars (fun c => Bool.eqb (p c) (q c)) (lstrip_by p s) = true.
Proof.
  induction s as [|c r IH]; simpl; intros H; [split; reflexivity|].
  apply andb_prop in H as [Hc Hr]. apply Bool.eqb_prop in Hc. rewrite <- Hc.
  destruct (p c) eqn:E; [apply IH; exact Hr|].
  split; [reflexivity|]. simpl. rewrite <- Hc, E, Hr. reflexivity.
Qed.

Lemma rstrip_by_agree (p q : ascii -> bool) (s : string) :
  all_chars (fun c => Bool.eqb (p c) (q c)) s = true -> rstrip_by p s = rstrip_by q s.
Proof.
  induction s as [|c r IH]; simpl; intros H; [reflexivity|].
  apply andb_prop in H as [Hc Hr]. apply Bool.eqb_prop in Hc.
  rewrite <- (IH Hr), <- Hc. reflexivity.
Qed.

Lemma strip_c_strip (s : string) : no_separators s = true -> strip s = c_strip s.
Proof.
  intros H. unfold strip, c_strip.
  assert (Ha : all_chars (fun c => Bool.eqb (is_space c) (is_c_space c)) s = true).
  { apply (all_chars_weaken (fun c => negb (between 28 31 c))); [|exact H].
    intros c Hc. rewrite (separator_free_space c Hc). apply Bool.eqb_reflx. }
  destruct (lstrip_by_agree is_space is_c_space s Ha) as [Hl Hrest].
  rewrite <- Hl. apply rstrip_by_agree. exact Hrest.
Qed.

Lemma strip_by_idem (p : ascii -> bool) (s : string) :
  rstrip_by p (lstrip_by p (rstrip_by p (lstrip_by p s))) = rstrip_by p (lstrip_by p s).
Proof.
  destruct (lstrip_by_head p s) as [-> | (c & r & -> & Hc)]; [reflexivity|].
  destruct (rstrip_by_keeps_head p c r Hc) as [r' Hr].
  rewrite Hr. simpl lstrip_by. rewrite Hc. rewrite <- Hr. apply rstrip_by_idem.
Qed.

(** X2: white space around the text does not count for [parse_bool] and
    [parse_dofollow]: the trimmed text gives the same value.  The same
    holds for [parse_int] on text without the separators 0x1c..0x1f, which
    [strip] takes off and [int] does not accept. *)
Theorem normalisers_ignore_outer_space (s : string) :
  parse_bool (Some (strip s)) = parse_bool (Some s)
  /\ parse_dofollow (Some (strip s)) = parse_dofollow (Some s)
  /\ (no_separators s = true -> parse_int (Some (strip s)) = parse_int (Some s)).
Proof.
  split; [|split].
  - unfold parse_bool. simpl falsy_str. simpl text_of. rewrite strip_idem.
    destruct (String.eqb (strip s) "") eqn:E.
    + apply String.eqb_eq in E. rewrite E. destruct (String.eqb s ""); reflexivity.
    + destruct s; [discriminate | reflexivity].
  - unfold parse_dofollow. simpl falsy_str. simpl text_of. rewrite strip_idem.
    destruct (String.eqb (strip s) "") eqn:E.
    + apply String.eqb_eq in E. rewrite E. destruct (String.eqb s ""); reflexivity.
    + destruct s; [discriminate | reflexivity].
  - intros H. unfold parse_int. rewrite blank_strip. destruct (blank (Some s)); [reflexivity|].
    unfold py_int. simpl text_of. rewrite (strip_c_strip s H).
    unfold c_strip. rewrite strip_by_idem. reflexivity.
Qed.

Lemma normalisers_ignore_outer_space_witness :
  parse_int (Some (strip "  42 ")) = parse_int (Some "  42 ").
Proof.
  apply (proj2 (proj2 (normalisers_ignore_outer_space "  42 "))). reflexivity.
Defined.

(** With a separator the two differ: [strip] takes it off, [int] takes the
    text for no number. *)
Lemma separator_is_no_space_for_int :
  parse_int (Some (String "028" "5")) = None
  /\ parse_int (Some (strip (String "028" "5"))) = Some 5%Z.
Proof.
  split; reflexivity.
Qed.

Lemma str_in_flags (v : string) :
  str_in v ["yes"; "true"; "1"] = true ->
  str_in v ["no"; "nofollow"; "false"; "0"; "-"] = false.
Proof.
  unfold str_in. simpl. rewrite !orb_false_r. intros H.
  apply orb_true_iff in H as [H | H]; [|apply orb_true_iff in H as [H | H]];
    apply String.eqb_eq in H; subst v; reflexivity.
Qed.

(** X3: the two readings of a flag agree on a yes: whatever [parse_bool]
    takes for true, [parse_dofollow] takes for true as well, and
    [parse_dofollow] is false exactly on the texts "no", "nofollow",
    "false", "0" and "-" (trimmed, in any letter case); everything else,
    a missing or empty value included, is a do-follow. *)
Theorem flags_agree (v : option string) :
  (parse_bool v = true -> parse_dofollow v = true)
  /\ (parse_dofollow v = false -> parse_bool v = false)
  /\ (parse_dofollow v = false <->
      falsy_str v = false
      /\ str_in (lower (strip (text_of v))) ["no"; "nofollow"; "false"; "0"; "-"] = true).
Proof.
  assert (H1 : parse_bool v = true -> parse_dofollow v = true).
  { unfold parse_bool, parse_dofollow. destruct (falsy_str v); [discriminate|].
    intros ->. reflexivity. }
  split; [exact H1|]. split.
  - intros H. destruct (parse_bool v) eqn:E; [|reflexivity].
    rewrite (H1 eq_refl) in H. discriminate.
  - unfold parse_dofollow. destruct (falsy_str v); [split; [discriminate | intros [? _]; discriminate]|].
    destruct (str_in (lower (strip (text_of v))) ["yes"; "true"; "1"]) eqn:Ep.
    + rewrite (str_in_flags _ Ep). split; [discriminate | intros [_ ?]; discriminate].
    + destruct (str_in (lower (strip (text_of v))) ["no"; "nofollow"; "false"; "0"; "-"]).
      * split; [intros _; split; reflexivity | reflexivity].
      * split; [discriminate | intros [_ ?]; discriminate].
Qed.

Lemma flags_agree_witness : parse_dofollow (Some " YES ") = true.
Proof.
  apply (proj1 (flags_agree (Some " YES "))). reflexivity.
Defined.

(** ** Currency signs and separators *)

Lemma blank_removed (old : ascii) (s : string) :
  is_space old = false -> blank (Some s) = true -> remove_char old s = s.
Proof.
  intros Ho Hb. rewrite blank_spaces in Hb. apply remove_char_spaces; assumption.
Qed.

(** X4: the "$" signs and the commas of a price may stand anywhere: taking
    them out of the text beforehand gives the same [parse_price], and
    likewise the commas of a traffic figure for [parse_traffic]. *)
Theorem separators_do_not_count (s : string) :
  parse_price (Some (remove_char "$" s)) = parse_price (Some s)
  /\ parse_price (Some (remove_char "," s)) = parse_price (Some s)
  /\ parse_traffic (Some (remove_char "," s)) = parse_traffic (Some s).
Proof.
  assert (Hempty : forall t, blank (Some t) = true ->
                             strip (remove_char "," t) = "").
  { intros t Ht. rewrite (blank_removed "," t eq_refl Ht).
    rewrite blank_spaces in Ht. apply strip_empty. exact Ht. }
  repeat split.
  - unfold parse_price. simpl text_of. rewrite remove_char_idem.
    destruct (blank (Some s)) eqn:Hs.
    + rewrite (blank_removed "$" s eq_refl Hs), Hs. reflexivity.
    + destruct (blank (Some (remove_char "$" s))) eqn:Hr; [|reflexivity].
      rewrite (Hempty _ Hr). reflexivity.
  - unfold parse_price. simpl text_of.
    rewrite (remove_char_comm "$" "," s), remove_char_idem.
    destruct (blank (Some s)) eqn:Hs.
    + rewrite (blank_removed "," s eq_refl Hs), Hs. reflexivity.
    + destruct (blank (Some (remove_char "," s))) eqn:Hr; [|reflexivity].
      rewrite (remove_char_comm "," "$" s).
      rewrite (blank_removed "$" _ eq_refl Hr).
      rewrite blank_spaces in Hr. apply strip_empty in Hr. rewrite Hr. reflexivity.
  - unfold parse_traffic. simpl text_of.
    rewrite !remove_char_upper_comma, remove_char_idem.
    destruct (blank (Some s)) eqn:Hs.
    + rewrite (blank_removed "," s eq_refl Hs), Hs. reflexivity.
    + destruct (blank (Some (remove_char "," s))) eqn:Hr; [|reflexivity].
      rewrite blank_spaces in Hr.
      assert (Hu : strip (upper (remove_char "," s)) = "").
      { rewrite strip_upper. apply strip_empty in Hr. rewrite Hr. reflexivity. }
      rewrite Hu. reflexivity.
Qed.

(** ** Numbers written in digits *)

Lemma uint_digits (d : Decimal.uint) :
  all_chars is_digit (NilEmpty.string_of_uint d) = true.
Proof.
  induction d; simpl; try reflexivity; exact IHd.
Qed.

Lemma uint_value (d : Decimal.uint) :
  forall a, decimal_value (NilEmpty.string_of_uint d) (Z.of_nat a)
            = Z.of_nat (Nat.of_uint_acc d a).
Proof.
  induction d as [|d IH|d IH|d IH|d IH|d IH|d IH|d IH|d IH|d IH|d IH]; intros a;
    [reflexivity| | | | | | | | | |];
    cbn [NilEmpty.string_of_uint decimal_value Nat.of_uint_acc];
    rewrite <- IH; f_equal; rewrite Nat.tail_mul_spec;
    match goal with
    | |- context [digit_val ?c] =>
        let v := eval vm_compute in (digit_val c) in change (digit_val c) with v
    end; lia.
Qed.

Lemma str_of_nat_value (n : nat) : decimal_value (str_of_nat n) 0 = Z.of_nat n.
Proof.
  unfold str_of_nat. change 0%Z with (Z.of_nat 0).
  rewrite (uint_value (Nat.to_uint n) 0).
  change (Nat.of_uint_acc (Nat.to_uint n) 0) with (Nat.of_uint (Nat.to_uint n)).
  rewrite DecimalNat.Unsigned.of_to. reflexivity.
Qed.

Lemma str_of_nat_nonempty (n : nat) : str_of_nat n <> "".
Proof.
  unfold str_of_nat. intros H.
  assert (Hd : Nat.to_uint n = Decimal.Nil) by (destruct (Nat.to_uint n); [reflexivity | discriminate ..]).
  pose proof (DecimalNat.Unsigned.of_to n) as Hn. rewrite Hd in Hn.
  simpl in Hn. subst n. discriminate.
Qed.

Lemma str_of_nat_injective (a b : nat) : str_of_nat a = str_of_nat b -> a = b.
Proof.
  intros H. apply Nat2Z.inj. rewrite <- !str_of_nat_value, H. reflexivity.
Qed.

Lemma parse_int_of_digits (s : string) :
  s <> "" -> all_chars is_digit s = true -> String.length s <= max_str_digits ->
  parse_int (Some s) = Some (decimal_value s 0).
Proof.
  intros Hne Hd Hlen. unfold parse_int. rewrite (blank_spaces_digits s Hne Hd).
  simpl text_of. rewrite (py_int_of_digits s Hd).
  assert (Hm : (max_str_digits <? String.length s)%nat = false)
    by (apply Nat.ltb_ge; exact Hlen).
  rewrite Hm. destruct s; [congruence | reflexivity].
Qed.

(** X5: writing a number in decimal and reading it back with [parse_int]
    gives the number: the text of [str(n)] parses to [n], for every natural
    number [n] of at most 4300 digits, the interpreter's limit for such
    texts. *)
Theorem parse_int_round_trip (n : nat) :
  String.length (str_of_nat n) <= max_str_digits ->
  parse_int (Some (str_of_nat n)) = Some (Z.of_nat n).
Proof.
  intros Hlen. rewrite parse_int_of_digits.
  - rewrite str_of_nat_value. reflexivity.
  - apply str_of_nat_nonempty.
  - apply uint_digits.
  - exact Hlen.
Qed.

Lemma parse_int_round_trip_witness :
  parse_int (Some (str_of_nat 1800)) = Some (Z.of_nat 1800).
Proof.
  apply (parse_int_round_trip 1800). apply Nat.leb_le. vm_compute. reflexivity.
Defined.

(** ** The columns and placeholders of a statement *)

Lemma fields_of_subset (data : list (string * pyval)) (k : string) :
  In k (fields_of data) -> In k (map fst data).
Proof.
  unfold fields_of. rewrite !in_map_iff. intros [kv [Hk Hin]].
  apply filter_In in Hin as [Hin _]. exists kv. split; assumption.
Qed.

Lemma fields_of_nodup (data : list (string * pyval)) :
  List.NoDup (map fst data) -> List.NoDup (fields_of data).
Proof.
  induction data as [|[k v] r IH]; intros H; [constructor|].
  simpl in H. apply List.NoDup_cons_iff in H as [Hk Hr].
  unfold fields_of. simpl. destruct (is_not_none v); simpl.
  - constructor; [|apply IH; exact Hr].
    intros Hin. apply Hk. apply (fields_of_subset r k Hin).
  - apply IH. exact Hr.
Qed.

Lemma fields_of_subsequence (data : list (string * pyval)) :
  List.NoDup (map fst data) -> subsequence (fields_of data) (map fst data) = true.
Proof.
  induction data as [|[k v] r IH]; intros H; [reflexivity|].
  simpl in H. apply List.NoDup_cons_iff in H as [Hk Hr]. specialize (IH Hr).
  unfold fields_of in *. simpl. destruct (is_not_none v); simpl.
  - rewrite String.eqb_refl. exact IH.
  - destruct (map fst (List.filter (fun kv => is_not_none (snd kv)) r)) as [|x rest] eqn:E;
      [reflexivity|].
    destruct (String.eqb x k) eqn:Hx; [|exact IH].
    apply String.eqb_eq in Hx. subst x. exfalso. apply Hk.
    apply (fields_of_subset r k). unfold fields_of. rewrite E. left. reflexivity.
Qed.

Lemma record_columns_nodup : List.NoDup record_columns.
Proof.
  unfold record_columns.
  repeat (constructor; [simpl; intuition discriminate|]). constructor.
Qed.

(** X6: in the statement built for a row no column is named twice and no
    placeholder is used twice; the columns named are the record's columns
    in their fixed order, with some of them left out. *)
Theorem statement_names_once (row : raw_row) (website : string) (data : list (string * pyval)) :
  build_data row website = Return data ->
  List.NoDup (fields_of data)
  /\ subsequence (fields_of data) record_columns = true
  /\ List.NoDup (placeholders_of (length (fields_of data))).
Proof.
  intros H.
  destruct (build_data_shape row website data H) as (contact & category & _ & _ & Hd).
  assert (Hk : map fst data = record_columns) by (rewrite Hd; reflexivity).
  split; [|split].
  - apply fields_of_nodup. rewrite Hk. apply record_columns_nodup.
  - rewrite <- Hk. apply fields_of_subsequence. rewrite Hk. apply record_columns_nodup.
  - unfold placeholders_of. apply Finite.Injective_map_NoDup; [|apply List.seq_NoDup].
    intros a b Hab. injection Hab as Hab. apply str_of_nat_injective in Hab. lia.
Qed.

Lemma statement_names_once_witness :
  subsequence
    (fields_of
       [ ("website", PStr "Example.com"); ("contact", PNone); ("category", PNone);
         ("da", PNone); ("domain_rating", PNone); ("organic_traffic", PInt 0);
         ("client_price", PInt 0); ("is_indexed", PBool false);
         ("do_follow", PBool true); ("news", PBool false);
         ("sponsored", PBool false); ("cbd", PBool false);
         ("casino", PBool false); ("dating", PBool false);
         ("crypto", PBool false); ("tat", PNone); ("status", PStr "active") ])
    record_columns = true.
Proof.
  refine (proj1 (proj2 (statement_names_once bare_row "Example.com" _ _))).
  vm_compute. reflexivity.
Defined.

(** * Further properties of the website normaliser *)

Lemma drop_prefix_app (p s t : string) : drop_prefix p s = Some t -> s = p +:+ t.
Proof.
  revert s. induction p as [|a p IH]; intros s; simpl.
  - intros H. injection H as ->. reflexivity.
  - destruct s as [|b s]; [discriminate|].
    destruct (Ascii.eqb a b) eqn:E; [|discriminate].
    apply Ascii.eqb_eq in E. subst b. intros H. rewrite (IH s H). reflexivity.
Qed.

Lemma append_assoc (a b c : string) : (a +:+ b) +:+ c = a +:+ (b +:+ c).
Proof.
  induction a as [|x a IH]; simpl; [reflexivity|]. rewrite IH. reflexivity.
Qed.

Lemma sub_protocol_app (url : string) :
  exists p, In p [""; "http://"; "https://"] /\ url = p +:+ sub_protocol url.
Proof.
  unfold sub_protocol.
  destruct (drop_prefix "https://" url) as [t|] eqn:E1.
  - exists "https://". split; [in_list | apply drop_prefix_app; exact E1].
  - destruct (drop_prefix "http://" url) as [t|] eqn:E2.
    + exists "http://". split; [in_list | apply drop_prefix_app; exact E2].
    + exists "". split; [in_list | reflexivity].
Qed.

Lemma sub_www_app (url : string) :
  exists p, In p [""; "www."] /\ url = p +:+ sub_www url.
Proof.
  unfold sub_www. destruct (drop_prefix "www." url) as [t|] eqn:E.
  - exists "www.". split; [in_list | apply drop_prefix_app; exact E].
  - exists "". split; [in_list | reflexivity].
Qed.

(** X7: [clean_website] gives nothing exactly for a missing or empty text;
    otherwise the text is the result with one of the six prefixes "",
    "http://", "https://", "www.", "http://www.", "https://www." before it
    and only slashes after it: nothing else is changed, letter case
    included. *)
Theorem clean_website_keeps_the_rest (url : option string) :
  (clean_website url = None <-> falsy_str url = true)
  /\ (forall r,
        clean_website url = Some r ->
        exists p n, In p website_prefixes /\ text_of url = p +:+ r +:+ repeat_char "/" n).
Proof.
  unfold clean_website. split.
  - destruct (falsy_str url); split; intros H; try reflexivity; discriminate.
  - intros r H. destruct (falsy_str url); [discriminate|]. injection H as <-.
    destruct (sub_protocol_app (text_of url)) as (p1 & Hp1 & H1).
    destruct (sub_www_app (sub_protocol (text_of url))) as (p2 & Hp2 & H2).
    destruct (rstrip_by_tail (Ascii.eqb "/") (sub_www (sub_protocol (text_of url))))
      as (t & Ht & Hs).
    apply all_chars_repeat in Hs. unfold rstrip_slash.
    remember (text_of url) as u eqn:Eu.
    remember (sub_protocol u) as a eqn:Ea.
    remember (sub_www a) as b eqn:Eb.
    remember (rstrip_by (Ascii.eqb "/") b) as c eqn:Ec.
    clear Eu Ea Eb Ec.
    exists (p1 +:+ p2), (String.length t).
    rewrite <- Hs. split.
    + simpl in Hp1, Hp2.
      destruct Hp1 as [<- | [<- | [<- | []]]]; destruct Hp2 as [<- | [<- | []]]; in_list.
    + subst u a b. symmetry. apply append_assoc.
Qed.

Lemma clean_website_keeps_the_rest_witness :
  exists p n, In p website_prefixes
              /\ text_of (Some "http://www.Example.COM/News//")
                 = p +:+ "Example.COM/News" +:+ repeat_char "/" n.
Proof.
  apply (proj2 (clean_website_keeps_the_rest (Some "http://www.Example.COM/News//"))).
  reflexivity.
Defined.

(** * Further properties of the driver *)

(** ** One row *)

Lemma paces_app (a b : list event) : paces (a ++ b) = paces a + paces b.
Proof.
  unfold paces. rewrite List.filter_app, List.length_app. reflexivity.
Qed.

Lemma insert_website_trace (net : list event -> request -> outcome pyval)
      (row : raw_row) (tr tr' : list event) (result error : pyval) :
  insert_website net row tr = Return (result, error, tr') ->
  (result = PNone /\ tr' = tr /\ rate_limited error = Return false)
  \/ (exists data,
        build_data row (text_of (clean_website (row_get row "Magazines"))) = Return data
        /\ tr' = tr ++ [Post (build_request data)]
        /\ (result = PNone \/ error = PNone)).
Proof.
  unfold insert_website.
  destruct (falsy_str (clean_website (row_get row "Magazines"))).
  - intros H. injection H as <- <- <-. left. repeat split.
  - destruct (build_data row _) as [data|] eqn:Hd; simpl; [|discriminate].
    pose proof (classify_answer_one_sided (net tr (build_request data))) as Hone.
    destruct (classify_answer (net tr (build_request data))) as [r e].
    intros H. injection H as <- <- <-. right. exists data. repeat split. exact Hone.
Qed.

Lemma attempts_tail (net : list event -> request -> outcome pyval) (row : raw_row) (n : nat) :
  forall r0 e0 tr r e tr',
    attempts net n row r0 e0 tr = Return (r, e, tr') ->
    exists tail,
      tr' = tr ++ tail
      /\ posts tail <= n /\ cooldowns tail <= posts tail /\ paces tail = 0
      /\ Forall (fun ev =>
                   ev = Sleep cooldown_ms
                   \/ exists data,
                       build_data row (text_of (clean_website (row_get row "Magazines")))
                       = Return data
                       /\ ev = Post (build_request data)) tail
      /\ (truthy r = true -> truthy r0 = true \/ 1 <= posts tail).
Proof.
  induction n as [|n IH]; intros r0 e0 tr r e tr' H.
  - simpl in H. injection H as <- <- <-. exists []. rewrite app_nil_r.
    unfold posts, cooldowns, paces. simpl.
    split; [reflexivity|]. split; [lia|]. split; [lia|]. split; [reflexivity|].
    split; [constructor | intros Ht; left; exact Ht].
  - rewrite attempts_unfold in H. unfold bind in H.
    destruct (insert_website net row tr) as [[[r1 e1] tr1]|] eqn:Hi; [|discriminate].
    destruct (rate_limited e1) as [limited|] eqn:Hl; [|discriminate].
    apply insert_website_trace in Hi as [(-> & -> & Hno) | (data & Hd & -> & Hone)].
    + rewrite Hno in Hl. injection Hl as <-. injection H as <- <- <-.
      exists []. rewrite app_nil_r. unfold posts, cooldowns, paces. simpl.
      split; [reflexivity|]. split; [lia|]. split; [lia|]. split; [reflexivity|].
      split; [constructor | discriminate].
    + destruct limited.
      * apply IH in H as (tail & -> & Hp & Hc & Hz & Hall & _).
        exists ([Post (build_request data)] ++ [Sleep cooldown_ms] ++ tail).
        rewrite !app_assoc. split; [reflexivity|].
        rewrite <- !app_assoc. rewrite !posts_app, !cooldowns_app, !paces_app.
        change (posts [Post (build_request data)]) with 1.
        change (cooldowns [Post (build_request data)]) with 0.
        change (paces [Post (build_request data)]) with 0.
        change (posts [Sleep cooldown_ms]) with 0.
        change (cooldowns [Sleep cooldown_ms]) with 1.
        change (paces [Sleep cooldown_ms]) with 0.
        split; [lia|]. split; [lia|]. split; [lia|]. split.
        -- simpl. constructor; [right; exists data; split; [exact Hd | reflexivity]|].
           constructor; [left; reflexivity | exact Hall].
        -- intros _. right. lia.
      * injection H as <- <- <-. exists [Post (build_request data)].
        unfold posts, cooldowns, paces. simpl.
        split; [reflexivity|]. split; [lia|]. split; [lia|]. split; [reflexivity|]. split.
        -- constructor; [right; exists data; split; [exact Hd | reflexivity] | constructor].
        -- intros _. right. lia.
Qed.

Lemma process_row_shape (net : list event -> request -> outcome pyval)
      (i : nat) (row : raw_row) (st st' : run) :
  process_row net i row st = Return st' ->
  exists tail,
    log st' = log st ++ Sleep pace_ms :: tail
    /\ posts tail <= retries /\ cooldowns tail <= posts tail /\ paces tail = 0
    /\ Forall (fun ev =>
                 ev = Sleep cooldown_ms
                 \/ exists data,
                     build_data row (text_of (clean_website (row_get row "Magazines")))
                     = Return data
                     /\ ev = Post (build_request data)) tail
    /\ (success_count st' = success_count st + 1 -> 1 <= posts tail)
    /\ ((errors st' = errors st /\ error_count st' = error_count st)
        \/ (exists e,
              errors st'
              = errors st ++ [ErrorLine (i + 1) (default (Some "unknown") (row !! "Magazines")) e]
              /\ error_count st' = error_count st + 1)).
Proof.
  unfold process_row.
  destruct (falsy_str _ || String.eqb _ _).
  - intros H. injection H as <-. exists []. simpl log.
    unfold posts, cooldowns, paces. simpl.
    split; [reflexivity|]. split; [lia|]. split; [lia|]. split; [reflexivity|].
    split; [constructor|]. split; [lia | left; split; reflexivity].
  - unfold bind.
    destruct (attempts net retries row PNone PNone _) as [[[r e] tr]|] eqn:Ha; [|discriminate].
    apply attempts_tail in Ha as (tail & -> & Hp & Hc & Hz & Hall & Hs).
    intros H. injection H as <-. exists tail.
    split; [|split; [exact Hp|split; [exact Hc|split; [exact Hz|split; [exact Hall|]]]]].
    + unfold tally. rewrite <- app_assoc.
      destruct (truthy r); [reflexivity|]. destruct (is_duplicate e); reflexivity.
    + unfold tally. destruct (truthy r) eqn:Hr.
      * split; [|left; split; reflexivity].
        intros _. destruct (Hs eq_refl) as [Hf | Hpos]; [discriminate | exact Hpos].
      * destruct (is_duplicate e); simpl.
        -- split; [lia | left; split; reflexivity].
        -- split; [lia | right; exists e; split; reflexivity].
Qed.

(** X8: the tries of one row send one and the same request: whatever is
    posted for a row, on the first try or on a retry, is the statement
    built from that row, so any two posts of the row are equal. *)
Theorem retries_resend_the_request
        (net : list event -> request -> outcome pyval) (i : nat) (row : raw_row) (st st' : run) :
  process_row net i row st = Return st' ->
  exists tail,
    log st' = log st ++ Sleep pace_ms :: tail
    /\ (forall r1 r2, In (Post r1) tail -> In (Post r2) tail -> r1 = r2)
    /\ (forall r data,
          In (Post r) tail ->
          build_data row (text_of (clean_website (row_get row "Magazines"))) = Return data ->
          r = build_request data).
Proof.
  intros H. apply process_row_shape in H as (tail & Hlog & _ & _ & _ & Hall & _).
  exists tail. split; [exact Hlog|].
  rewrite List.Forall_forall in Hall.
  assert (Hpost : forall r data,
             In (Post r) tail ->
             build_data row (text_of (clean_website (row_get row "Magazines"))) = Return data ->
             r = build_request data).
  { intros r data Hin Hd. destruct (Hall _ Hin) as [Hs | (data' & Hd' & Hp)]; [discriminate|].
    injection Hp as ->. congruence. }
  split; [|exact Hpost].
  intros r1 r2 H1 H2.
  destruct (Hall _ H1) as [Hs | (data & Hd & Hp)]; [discriminate|].
  rewrite (Hpost r1 data H1 Hd), (Hpost r2 data H2 Hd). reflexivity.
Qed.

Lemma retries_resend_the_request_witness :
  exists tail,
    log refused_run = log (Run 4 1 1 [] []) ++ Sleep pace_ms :: tail
    /\ (forall r1 r2, In (Post r1) tail -> In (Post r2) tail -> r1 = r2)
    /\ (forall r data,
          In (Post r) tail ->
          build_data bare_row (text_of (clean_website (row_get bare_row "Magazines")))
          = Return data ->
          r = build_request data).
Proof.
  apply (retries_resend_the_request (busy_net 3) 6 bare_row (Run 4 1 1 [] []) refused_run).
  vm_compute. reflexivity.
Defined.

(** ** A whole run *)

Lemma rows_loop_invariant (net : list event -> request -> outcome pyval) (start : Z)
      (P : nat -> run -> Prop) :
  (forall i st, P i st -> P (S i) st) ->
  (forall i row st st',
      (start <= Z.of_nat i)%Z -> P i st -> process_row net i row st = Return st' ->
      P (S i) st') ->
  forall rows i st st',
    P i st -> rows_loop net start rows i st = Return st' -> P (i + length rows) st'.
Proof.
  intros Hskip Hstep. induction rows as [|row rest IH]; intros i st st' HP H; simpl in H.
  - injection H as <-. simpl. rewrite Nat.add_0_r. exact HP.
  - simpl length. rewrite Nat.add_succ_r. change (S (i + length rest)) with (S i + length rest).
    destruct (Z.of_nat i <? start)%Z eqn:Hi.
    + apply (IH (S i) st st'); [apply Hskip; exact HP | exact H].
    + apply Z.ltb_ge in Hi. unfold bind in H.
      destruct (process_row net i row st) as [st1|] eqn:Hp; [|discriminate].
      apply (IH (S i) st1 st'); [|exact H].
      apply (Hstep i row st st1 Hi HP Hp).
Qed.

Lemma sorted_snoc (l : list nat) (x : nat) :
  StronglySorted lt l -> Forall (fun y => y < x) l -> StronglySorted lt (l ++ [x]).
Proof.
  induction 1 as [|a l Hs IH Ha]; intros Hx; simpl.
  - constructor; constructor.
  - apply List.Forall_cons_iff in Hx as [Hax Hlx].
    constructor; [apply IH; exact Hlx|].
    apply List.Forall_app. split; [exact Ha | constructor; [exact Hax | constructor]].
Qed.

Lemma main_errors (net : list event -> request -> outcome pyval) (start : Z)
      (rows : list raw_row) (st : run) :
  main net start rows = Return st ->
  length (errors st) = error_count st
  /\ StronglySorted lt (map line_row (errors st))
  /\ Forall (fun l => (start < Z.of_nat (line_row l))%Z /\ 1 <= line_row l <= length rows)
            (errors st).
Proof.
  unfold main. intros H.
  apply (rows_loop_invariant net start
           (fun i st =>
              length (errors st) = error_count st
              /\ StronglySorted lt (map line_row (errors st))
              /\ Forall (fun l => (start < Z.of_nat (line_row l))%Z /\ 1 <= line_row l <= i)
                        (errors st))) in H.
  - exact H.
  - intros i s (Hl & Hs & Hf). split; [exact Hl|]. split; [exact Hs|].
    apply (List.Forall_impl _ (P := fun l => (start < Z.of_nat (line_row l))%Z
                                           /\ 1 <= line_row l <= i)); [|exact Hf].
    intros l Hb. lia.
  - intros i row s s' Hi (Hl & Hs & Hf) Hp.
    apply process_row_shape in Hp as (tail & _ & _ & _ & _ & _ & _ & He).
    destruct He as [[He Hc] | (e & He & Hc)].
    + rewrite He, Hc. split; [exact Hl|]. split; [exact Hs|].
      apply (List.Forall_impl _ (P := fun l => (start < Z.of_nat (line_row l))%Z
                                             /\ 1 <= line_row l <= i)); [|exact Hf].
      intros l Hb. lia.
    + rewrite He, Hc. split; [rewrite List.length_app; simpl; lia|]. split.
      * rewrite List.map_app. simpl. apply sorted_snoc; [exact Hs|].
        apply List.Forall_map. apply (List.Forall_impl _ (P := fun l =>
                 (start < Z.of_nat (line_row l))%Z /\ 1 <= line_row l <= i)); [|exact Hf].
        intros l Hb. lia.
      * apply List.Forall_app. split.
        -- apply (List.Forall_impl _ (P := fun l => (start < Z.of_nat (line_row l))%Z
                                                  /\ 1 <= line_row l <= i)); [|exact Hf].
           intros l Hb. lia.
        -- constructor; [simpl; lia | constructor].
  - simpl. split; [reflexivity|]. split; constructor.
Qed.

(** X9: at the end of a run the error list has one line for each counted
    error; the lines stand in the order of the input, their row numbers
    strictly increasing; and every row number is a 1-based position in the
    input that lies after the resume offset. *)
Theorem errors_follow_the_input
        (net : list event -> request -> outcome pyval) (start : Z)
        (rows : list raw_row) (st : run) :
  main net start rows = Return st ->
  length (errors st) = error_count st
  /\ StronglySorted lt (map line_row (errors st))
  /\ Forall (fun l => (start < Z.of_nat (line_row l))%Z /\ 1 <= line_row l <= length rows)
            (errors st).
Proof.
  intros H. destruct (main_errors net start rows st H) as (Hl & Hs & Hf).
  split; [exact Hl|]. split; [exact Hs | exact Hf].
Qed.

Lemma errors_follow_the_input_witness :
  length (errors failed_run) = error_count failed_run
  /\ StronglySorted lt (map line_row (errors failed_run))
  /\ Forall (fun l => (1 < Z.of_nat (line_row l))%Z /\ 1 <= line_row l <= length sample_rows)
            (errors failed_run).
Proof.
  apply (errors_follow_the_input (failing_net "relation is read-only") 1 sample_rows failed_run).
  vm_compute. reflexivity.
Defined.

Lemma main_log (net : list event -> request -> outcome pyval) (start : Z)
      (rows : list raw_row) (st : run) :
  main net start rows = Return st ->
  paces (log st) = counted st
  /\ posts (log st) <= retries * paces (log st)
  /\ cooldowns (log st) <= posts (log st)
  /\ success_count st <= posts (log st).
Proof.
  unfold main. intros H.
  apply (rows_loop_invariant net start
           (fun _ st =>
              paces (log st) = counted st
              /\ posts (log st) <= retries * paces (log st)
              /\ cooldowns (log st) <= posts (log st)
              /\ success_count st <= posts (log st))) in H.
  - exact H.
  - intros _ s Hs. exact Hs.
  - intros i row s s' _ (Hp & Hb & Hc & Hs) Hrow.
    pose proof (process_row_counts_one net i row s s' Hrow) as Hone.
    apply process_row_shape in Hrow as (tail & Hlog & Ht & Hct & Hz & _ & Hsucc & _).
    rewrite Hlog.
    change (Sleep pace_ms :: tail) with ([Sleep pace_ms] ++ tail).
    rewrite !paces_app, !posts_app, !cooldowns_app.
    change (paces [Sleep pace_ms]) with 1. change (posts [Sleep pace_ms]) with 0.
    change (cooldowns [Sleep pace_ms]) with 0.
    unfold counted in *. unfold retries in *. lia.
  - unfold counted, paces, posts, cooldowns. simpl. lia.
Qed.

(** X10: at the end of a run the log holds one pacing pause of 0.7 s for
    each counted row, at most three posts for each of them, no more
    cooldowns than posts, and at least one post for each success. *)
Theorem posts_and_pauses
        (net : list event -> request -> outcome pyval) (start : Z)
        (rows : list raw_row) (st : run) :
  main net start rows = Return st ->
  paces (log st) = success_count st + skip_count st + error_count st
  /\ posts (log st) <= 3 * (success_count st + skip_count st + error_count st)
  /\ cooldowns (log st) <= posts (log st)
  /\ success_count st <= posts (log st).
Proof.
  intros H. apply main_log in H as (Hp & Hb & Hc & Hs).
  unfold counted, retries in *. rewrite Hp in Hb. repeat split; assumption.
Qed.

Lemma posts_and_pauses_witness :
  paces (log failed_run)
  = success_count failed_run + skip_count failed_run + error_count failed_run
  /\ posts (log failed_run)
     <= 3 * (success_count failed_run + skip_count failed_run + error_count failed_run)
  /\ cooldowns (log failed_run) <= posts (log failed_run)
  /\ success_count failed_run <= posts (log failed_run).
Proof.
  apply (posts_and_pauses (failing_net "relation is read-only") 1 sample_rows failed_run).
  vm_compute. reflexivity.
Defined.

(** ** Resuming *)

Lemma process_row_shift (net : list event -> request -> outcome pyval)
      (k i : nat) (row : raw_row) (st : run) :
  process_row net (i + k) row (shift_run k st)
  = map_outcome (shift_run k) (process_row net i row st).
Proof.
  unfold process_row. simpl log.
  destruct (falsy_str _ || String.eqb _ _); [reflexivity|].
  unfold bind.
  destruct (attempts net retries row PNone PNone _) as [[[r e] tr]|]; [|reflexivity].
  simpl map_outcome. f_equal. unfold tally.
  destruct (truthy r); [reflexivity|]. destruct (is_duplicate e); [reflexivity|].
  unfold count_error, shift_run. simpl. f_equal.
  rewrite List.map_app. simpl. unfold shift_line. simpl.
  replace (i + k + 1) with (i + 1 + k) by lia. reflexivity.
Qed.

Lemma rows_loop_shift (net : list event -> request -> outcome pyval) (k : nat)
      (rows : list raw_row) :
  forall i st,
    rows_loop net (Z.of_nat k) rows (i + k) (shift_run k st)
    = map_outcome (shift_run k) (rows_loop net 0 rows i st).
Proof.
  induction rows as [|row rest IH]; intros i st; simpl; [reflexivity|].
  assert (H1 : (Z.of_nat (i + k) <? Z.of_nat k)%Z = false) by (apply Z.ltb_ge; lia).
  assert (H2 : (Z.of_nat i <? 0)%Z = false) by (apply Z.ltb_ge; lia).
  rewrite H1, H2, process_row_shift. unfold bind.
  destruct (process_row net i row st) as [st1|]; simpl; [|reflexivity].
  apply (IH (S i) st1).
Qed.

Lemma rows_loop_skipn (net : list event -> request -> outcome pyval) (k : nat) (st : run) :
  forall j rows i,
    i + j = k ->
    rows_loop net (Z.of_nat k) rows i st = rows_loop net (Z.of_nat k) (skipn j rows) k st.
Proof.
  induction j as [|j IH]; intros rows i H.
  - simpl. replace i with k by lia. reflexivity.
  - destruct rows as [|row rest]; [reflexivity|]. simpl.
    assert (Hi : (Z.of_nat i <? Z.of_nat k)%Z = true) by (apply Z.ltb_lt; lia).
    rewrite Hi. apply IH. lia.
Qed.

Lemma rows_loop_no_offset (net : list event -> request -> outcome pyval) (start : Z)
      (rows : list raw_row) :
  (start <= 0)%Z ->
  forall i st, rows_loop net start rows i st = rows_loop net 0 rows i st.
Proof.
  intros Hs. induction rows as [|row rest IH]; intros i st; simpl; [reflexivity|].
  assert (H1 : (Z.of_nat i <? start)%Z = false) by (apply Z.ltb_ge; lia).
  assert (H2 : (Z.of_nat i <? 0)%Z = false) by (apply Z.ltb_ge; lia).
  rewrite H1, H2. unfold bind.
  destruct (process_row net i row st) as [st1|]; [apply IH | reflexivity].
Qed.

(** X11: resuming at offset [k] is running on the input without its first
    [k] rows: the same counters, the same posts and pauses, the same
    errors, or the same exception; only the row numbers of the error lines
    are counted from the start of the whole input.  A negative offset is
    the offset 0. *)
Theorem resume_is_dropping
        (net : list event -> request -> outcome pyval) (k : nat) (rows : list raw_row) :
  main net (Z.of_nat k) rows = map_outcome (shift_run k) (main net 0 (skipn k rows))
  /\ main net (- Z.of_nat k) rows = main net 0 rows.
Proof.
  split.
  - unfold main. rewrite (rows_loop_skipn net k (Run 0 0 0 [] []) k rows 0 eq_refl).
    apply (rows_loop_shift net k (skipn k rows) 0 (Run 0 0 0 [] [])).
  - unfold main. apply rows_loop_no_offset. lia.
Qed.

(** ** The listing of errors *)

(** X12: after a run the listing shows the first ten error lines, in their
    order, and no more: all of them when there are ten or fewer, under the
    heading for all; the first ten under the heading for ten when there are
    more; and nothing when there is no error. *)
Theorem listing_shows_first_ten
        (net : list event -> request -> outcome pyval) (start : Z)
        (rows : list raw_row) (st : run) :
  main net start rows = Return st ->
  listed (error_listing st) = firstn 10 (errors st)
  /\ length (listed (error_listing st)) = Nat.min 10 (error_count st)
  /\ (error_listing st = NoListing <-> error_count st = 0)
  /\ (error_count st <= 10 -> error_count st <> 0 -> error_listing st = AllErrors (errors st))
  /\ (10 < error_count st -> error_listing st = FirstTen (firstn 10 (errors st))).
Proof.
  intros H. destruct (main_errors net start rows st H) as (Hl & _ & _).
  assert (Hshow : listed (error_listing st) = firstn 10 (errors st)).
  { unfold error_listing. destruct (errors st) as [|l r] eqn:E; [reflexivity|].
    destruct (error_count st <=? 10)%nat eqn:Hc; [|reflexivity].
    apply Nat.leb_le in Hc. simpl listed. symmetry. apply List.firstn_all2.
    rewrite Hl. exact Hc. }
  split; [exact Hshow|]. split; [|split; [|split]].
  - rewrite Hshow, List.length_firstn, Hl. reflexivity.
  - unfold error_listing. destruct (errors st) as [|l r] eqn:E.
    + simpl in Hl. split; [intros _; lia | reflexivity].
    + simpl in Hl. split; [|intros Hz; lia].
      destruct (error_count st <=? 10)%nat; discriminate.
  - intros Hc Hz. unfold error_listing. destruct (errors st) as [|l r] eqn:E.
    + simpl in Hl. lia.
    + apply Nat.leb_le in Hc. rewrite Hc. reflexivity.
  - intros Hc. unfold error_listing. destruct (errors st) as [|l r] eqn:E.
    + simpl in Hl. lia.
    + assert (Hf : (error_count st <=? 10)%nat = false) by (apply Nat.leb_gt; exact Hc).
      rewrite Hf. reflexivity.
Qed.

Lemma listing_shows_first_ten_witness :
  listed (error_listing failed_run) = firstn 10 (errors failed_run)
  /\ length (listed (error_listing failed_run)) = Nat.min 10 (error_count failed_run)
  /\ (error_listing failed_run = NoListing <-> error_count failed_run = 0)
  /\ (error_count failed_run <= 10 -> error_count failed_run <> 0 ->
      error_listing failed_run = AllErrors (errors failed_run))
  /\ (10 < error_count failed_run ->
      error_listing failed_run = FirstTen (firstn 10 (errors failed_run))).
Proof.
  apply (listing_shows_first_ten (failing_net "relation is read-only") 1 sample_rows failed_run).
  vm_compute. reflexivity.
Defined.

(** ** Answers and counters *)




(** * Whole numbers in binary64 *)

Lemma iter_pos_nat {A : Type} (f : A -> A) (p : positive) :
  forall x, SpecFloat.iter_pos f p x = Nat.iter (Pos.to_nat p) f x.
Proof.
  induction p as [p IH|p IH|]; intros x; simpl SpecFloat.iter_pos.
  - rewrite !IH, Pos2Nat.inj_xI. rewrite <- Nat.iter_add.
    replace (S (2 * Pos.to_nat p)) with (S (Pos.to_nat p + Pos.to_nat p)) by lia.
    rewrite Nat.iter_succ_r. reflexivity.
  - rewrite !IH, Pos2Nat.inj_xO. rewrite <- Nat.iter_add.
    replace (2 * Pos.to_nat p) with (Pos.to_nat p + Pos.to_nat p) by lia. reflexivity.
  - reflexivity.
Qed.

Lemma shr_trailing_zeros (k : nat) :
  forall q,
    Nat.iter k shr_1 (Build_shr_record (Zpos (Pos.shiftl_nat q k)) false false)
    = Build_shr_record (Zpos q) false false.
Proof.
  induction k as [|k IH]; intros q; [reflexivity|].
  rewrite Nat.iter_succ_r. change (Pos.shiftl_nat q (S k)) with (xO (Pos.shiftl_nat q k)).
  simpl shr_1. apply IH.
Qed.

Lemma shiftl_nat_value (q : positive) (k : nat) :
  Zpos (Pos.shiftl_nat q k) = (Zpos q * 2 ^ Z.of_nat k)%Z.
Proof.
  induction k as [|k IH].
  - simpl. lia.
  - change (Pos.shiftl_nat q (S k)) with (xO (Pos.shiftl_nat q k)).
    rewrite Pos2Z.inj_xO, IH, Nat2Z.inj_succ, Z.pow_succ_r by lia. lia.
Qed.

Lemma shiftl_nat_digits (q : positive) (k : nat) :
  Zpos (digits2_pos (Pos.shiftl_nat q k)) = (Zpos (digits2_pos q) + Z.of_nat k)%Z.
Proof.
  induction k as [|k IH].
  - simpl. lia.
  - change (Pos.shiftl_nat q (S k)) with (xO (Pos.shiftl_nat q k)).
    simpl digits2_pos. rewrite Pos2Z.inj_succ, IH. lia.
Qed.

Lemma digits2_size (p : positive) : digits2_pos p = Pos.size p.
Proof.
  induction p as [p IH|p IH|]; simpl; rewrite ?IH; reflexivity.
Qed.

Lemma digits_of_small (p : positive) :
  (Zpos p < 2 ^ 53)%Z -> (1 <= Zpos (digits2_pos p) <= 53)%Z.
Proof.
  intros H. split; [lia|].
  rewrite digits2_size.
  destruct (Z_le_gt_dec (Zpos (Pos.size p)) 53) as [Hle | Hgt]; [exact Hle|].
  exfalso.
  pose proof (Pos.size_le p) as Hs.
  assert (Hz : (2 ^ Zpos (Pos.size p) <= 2 * Zpos p)%Z).
  { rewrite <- Pos2Z.inj_pow. change (2 * Zpos p)%Z with (Zpos p~0). lia. }
  assert (Hp : (2 ^ 54 <= 2 ^ Zpos (Pos.size p))%Z) by (apply Z.pow_le_mono_r; lia).
  change (2 ^ 54)%Z with (2 * 2 ^ 53)%Z in Hp. lia.
Qed.

(** Rounding a mantissa with [k] trailing zero bits to the exponent [k]
    higher loses nothing. *)
Lemma round_exact (q : positive) (k : nat) (e : Z) :
  fexp 53 1024 (Zpos (digits2_pos q) + Z.of_nat k + e) = (e + Z.of_nat k)%Z ->
  (e + Z.of_nat k <= 971)%Z ->
  binary_round_aux 53 1024 false (Zpos (Pos.shiftl_nat q k)) e loc_Exact
  = S754_finite false q (e + Z.of_nat k).
Proof.
  intros Hf He. unfold binary_round_aux.
  assert (H1 : shr_fexp 53 1024 (Zpos (Pos.shiftl_nat q k)) e loc_Exact
               = (Build_shr_record (Zpos q) false false, (e + Z.of_nat k)%Z)).
  { unfold shr_fexp. simpl Zdigits2. rewrite shiftl_nat_digits, Hf.
    replace (e + Z.of_nat k - e)%Z with (Z.of_nat k) by lia.
    simpl shr_record_of_loc. destruct k as [|k].
    - simpl. f_equal. lia.
    - unfold shr. change (Z.of_nat (S k)) with (Zpos (Pos.of_succ_nat k)).
      cbv beta match. rewrite iter_pos_nat, SuccNat2Pos.id_succ.
      rewrite shr_trailing_zeros. reflexivity. }
  rewrite H1. simpl loc_of_shr_record. simpl shr_m. simpl round_nearest_even.
  assert (H2 : shr_fexp 53 1024 (Zpos q) (e + Z.of_nat k) loc_Exact
               = (Build_shr_record (Zpos q) false false, (e + Z.of_nat k)%Z)).
  { unfold shr_fexp. simpl Zdigits2.
    replace (Zpos (digits2_pos q) + (e + Z.of_nat k))%Z
      with (Zpos (digits2_pos q) + Z.of_nat k + e)%Z by lia.
    rewrite Hf, Z.sub_diag. reflexivity. }
  rewrite H2. simpl shr_m.
  assert (H3 : (e + Z.of_nat k <=? 1024 - 53)%Z = true) by (apply Z.leb_le; lia).
  rewrite H3. reflexivity.
Qed.

Lemma div_eucl_one (a : Z) : Z.div_eucl a 1 = (a, 0%Z).
Proof.
  pose proof (Z.div_1_r a) as Hq. pose proof (Z.mod_1_r a) as Hr.
  unfold Z.div, Z.modulo in Hq, Hr.
  destruct (Z.div_eucl a 1) as [q r]. simpl in Hq, Hr. subst. reflexivity.
Qed.

Lemma shiftl_pos (p : positive) (k : nat) :
  Z.shiftl (Zpos p) (Z.of_nat k) = Zpos (Pos.shiftl_nat p k).
Proof.
  rewrite Z.shiftl_mul_pow2 by lia. rewrite shiftl_nat_value. reflexivity.
Qed.

(** A positive whole number below 2^53 is a binary64 number: the decimal
    [p] is read as [p] itself, in normal form. *)
Lemma float_of_whole (p : positive) :
  (Zpos p < 2 ^ 53)%Z ->
  float_of_decimal false (Zpos p) 0
  = S754_finite false
      (Pos.shiftl_nat p (Z.to_nat (53 - Zpos (digits2_pos p))))
      (Zpos (digits2_pos p) - 53).
Proof.
  intros Hp. pose proof (digits_of_small p Hp) as Hd.
  unfold float_of_decimal, binary64_div.
  change (Z.max 0 0) with 0%Z. change (Z.max (- 0) 0) with 0%Z.
  change (10 ^ 0)%Z with 1%Z. rewrite Z.mul_1_r. simpl Z.to_pos.
  unfold SFdiv. simpl xorb.
  set (d := Zpos (digits2_pos p)) in *.
  assert (Hcore : SFdiv_core_binary 53 1024 (Zpos p) 0 1 0
                  = (Zpos (Pos.shiftl_nat p (S (Z.to_nat (53 - d)))), (d - 54)%Z, loc_Exact)).
  { unfold SFdiv_core_binary. simpl Zdigits2. fold d.
    assert (He : Z.min (fexp 53 1024 (d + 0 - (1 + 0))) (0 - 0) = (d - 54)%Z)
      by (unfold fexp, emin; lia).
    rewrite He.
    replace (0 - 0 - (d - 54))%Z with (Z.of_nat (S (Z.to_nat (53 - d)))) by lia.
    change (Z.of_nat (S (Z.to_nat (53 - d)))) with (Zpos (Pos.of_succ_nat (Z.to_nat (53 - d)))).
    cbv beta match.
    change (Zpos (Pos.of_succ_nat (Z.to_nat (53 - d)))) with (Z.of_nat (S (Z.to_nat (53 - d)))).
    rewrite shiftl_pos, div_eucl_one. reflexivity. }
  rewrite Hcore.
  change (Pos.shiftl_nat p (S (Z.to_nat (53 - d))))
    with (Pos.shiftl_nat (Pos.shiftl_nat p (Z.to_nat (53 - d))) 1).
  rewrite round_exact.
  - f_equal. lia.
  - rewrite shiftl_nat_digits. fold d. unfold fexp, emin. lia.
  - lia.
Qed.

Lemma int_of_normal (p : positive) (j : nat) (e : Z) :
  e = (- Z.of_nat j)%Z ->
  int_of_float (S754_finite false (Pos.shiftl_nat p j) e) = Some (Zpos p).
Proof.
  intros ->. unfold int_of_float. simpl cond_Zopp. f_equal.
  rewrite Z.shiftl_div_pow2 by lia. rewrite Z.opp_involutive, shiftl_nat_value.
  apply Z.div_mul. apply Z.pow_nonzero; lia.
Qed.

Lemma digits_monotone (p c : positive) :
  (Zpos (digits2_pos p) <= Zpos (digits2_pos (p * c)))%Z.
Proof.
  rewrite !digits2_size.
  destruct (Z_le_gt_dec (Zpos (Pos.size p)) (Zpos (Pos.size (p * c)))) as [H | H]; [exact H|].
  exfalso.
  pose proof (Pos.size_le p) as Hl. pose proof (Pos.size_gt (p * c)) as Hg.
  assert (Hl' : (2 ^ Zpos (Pos.size p) <= 2 * Zpos p)%Z).
  { rewrite <- Pos2Z.inj_pow. change (2 * Zpos p)%Z with (Zpos p~0). lia. }
  assert (Hg' : (Zpos (p * c) < 2 ^ Zpos (Pos.size (p * c)))%Z).
  { rewrite <- Pos2Z.inj_pow. lia. }
  assert (Hm : (2 * 2 ^ Zpos (Pos.size (p * c)) <= 2 ^ Zpos (Pos.size p))%Z).
  { rewrite <- Z.pow_succ_r by lia. apply Z.pow_le_mono_r; lia. }
  assert (Hpc : (Zpos p <= Zpos (p * c))%Z) by (rewrite Pos2Z.inj_mul; nia).
  lia.
Qed.

(** The product of two whole numbers in normal form is their product, in
    normal form, as long as it is below 2^53. *)
Lemma mul_of_whole (p c : positive) :
  (Zpos (p * c) < 2 ^ 53)%Z ->
  binary64_mul
    (S754_finite false (Pos.shiftl_nat p (Z.to_nat (53 - Zpos (digits2_pos p))))
                 (Zpos (digits2_pos p) - 53))
    (S754_finite false (Pos.shiftl_nat c (Z.to_nat (53 - Zpos (digits2_pos c))))
                 (Zpos (digits2_pos c) - 53))
  = S754_finite false
      (Pos.shiftl_nat (p * c) (Z.to_nat (53 - Zpos (digits2_pos (p * c)))))
      (Zpos (digits2_pos (p * c)) - 53).
Proof.
  intros Hpc.
  assert (Hp : (Zpos p < 2 ^ 53)%Z) by (rewrite Pos2Z.inj_mul in Hpc; nia).
  assert (Hc : (Zpos c < 2 ^ 53)%Z) by (rewrite Pos2Z.inj_mul in Hpc; nia).
  pose proof (digits_of_small p Hp) as Hdp.
  pose proof (digits_of_small c Hc) as Hdc.
  pose proof (digits_of_small (p * c) Hpc) as Hdpc.
  pose proof (digits_monotone p c) as Hmono.
  set (dp := Zpos (digits2_pos p)) in *.
  set (dc := Zpos (digits2_pos c)) in *.
  set (dpc := Zpos (digits2_pos (p * c))) in *.
  set (j := Z.to_nat (53 - dp)). set (i := Z.to_nat (53 - dc)).
  set (a := Z.to_nat (53 - dpc)).
  unfold binary64_mul, SFmul. simpl xorb.
  assert (Hsplit : (Pos.shiftl_nat p j * Pos.shiftl_nat c i)%positive
                   = Pos.shiftl_nat (Pos.shiftl_nat (p * c) a) (j + i - a)).
  { apply Pos2Z.inj. rewrite Pos2Z.inj_mul, !shiftl_nat_value, Pos2Z.inj_mul.
    assert (Hpow : (2 ^ Z.of_nat a * 2 ^ Z.of_nat (j + i - a)
                    = 2 ^ Z.of_nat j * 2 ^ Z.of_nat i)%Z).
    { rewrite <- !Z.pow_add_r by lia. f_equal. lia. }
    set (A := (2 ^ Z.of_nat a)%Z) in *. set (D := (2 ^ Z.of_nat (j + i - a))%Z) in *.
    set (J := (2 ^ Z.of_nat j)%Z) in *. set (I := (2 ^ Z.of_nat i)%Z) in *.
    replace (Zpos p * Zpos c * A * D)%Z with (Zpos p * Zpos c * (A * D))%Z by ring.
    rewrite Hpow. ring. }
  rewrite Hsplit, round_exact.
  - f_equal. lia.
  - rewrite shiftl_nat_digits. fold dpc. unfold fexp, emin. lia.
  - lia.
Qed.

(** ** Texts made of digits *)

Lemma digit_char (c : ascii) :
  is_digit c = true ->
  Ascii.eqb c "_" = false /\ Ascii.eqb c "," = false /\ Ascii.eqb c "$" = false
  /\ Ascii.eqb c "K" = false /\ Ascii.eqb c "M" = false /\ Ascii.eqb c "." = false
  /\ Ascii.eqb c "i" = false /\ Ascii.eqb c "n" = false
  /\ lower_char c = c /\ upper_char c = c
  /\ split_sign (String c "") = (false, String c "").
Proof.
  destruct c as [[] [] [] [] [] [] [] []]; intros H; vm_compute in H;
    try discriminate H; repeat split.
Qed.

Lemma remove_char_digits (old : ascii) (s : string) :
  is_digit old = false -> all_chars is_digit s = true -> remove_char old s = s.
Proof.
  intros Ho. induction s as [|c r IH]; simpl; [reflexivity|].
  intros H. apply andb_prop in H as [Hc Hr].
  destruct (Ascii.eqb c old) eqn:E.
  - apply Ascii.eqb_eq in E. congruence.
  - rewrite (IH Hr). reflexivity.
Qed.

Lemma has_char_digits (c : ascii) (s : string) :
  is_digit c = false -> all_chars is_digit s = true -> has_char c s = false.
Proof.
  intros Hc. induction s as [|d r IH]; simpl; [reflexivity|].
  intros H. apply andb_prop in H as [Hd Hr]. rewrite (IH Hr), orb_false_r.
  destruct (Ascii.eqb d c) eqn:E; [|reflexivity].
  apply Ascii.eqb_eq in E. congruence.
Qed.

Lemma map_string_digits (f : ascii -> ascii) (s : string) :
  (forall c, is_digit c = true -> f c = c) -> all_chars is_digit s = true -> map_string f s = s.
Proof.
  intros Hf. induction s as [|c r IH]; simpl; [reflexivity|].
  intros H. apply andb_prop in H as [Hc Hr]. rewrite (Hf c Hc), (IH Hr). reflexivity.
Qed.

Lemma float_underscores_digits (s : string) :
  all_chars is_digit s = true ->
  forall prev, is_digit prev = true \/ s <> "" -> Ascii.eqb prev "_" = false ->
               float_underscores s prev = Some s.
Proof.
  induction s as [|c r IH]; simpl; intros H prev Hp Hu.
  - rewrite Hu. reflexivity.
  - apply andb_prop in H as [Hc Hr].
    destruct (digit_char c Hc) as (Hcu & _). rewrite Hcu, Hu. simpl.
    rewrite (IH Hr c); [reflexivity | left; exact Hc | exact Hcu].
Qed.

Lemma span_digits_all (s : string) :
  all_chars is_digit s = true ->
  forall acc n, span_digits s acc n = (decimal_value s acc, n + String.length s, "").
Proof.
  induction s as [|c r IH]; simpl; intros H acc n.
  - rewrite Nat.add_0_r. reflexivity.
  - apply andb_prop in H as [Hc Hr]. rewrite Hc, (IH Hr). f_equal. f_equal. lia.
Qed.

Lemma py_float_digits (s : string) :
  s <> "" -> all_chars is_digit s = true ->
  py_float s = Some (float_of_decimal false (decimal_value s 0) 0).
Proof.
  intros Hne Hd. unfold py_float. rewrite (c_strip_digits s Hd).
  rewrite (float_underscores_digits s Hd); [|right; exact Hne | reflexivity].
  destruct s as [|c r]; [congruence|].
  assert (Hc : is_digit c = true) by (simpl in Hd; apply andb_prop in Hd; tauto).
  destruct (digit_char c Hc) as (_ & _ & _ & _ & _ & Hdot & Hi & Hn & Hl & _ & Hsign).
  assert (Hs : split_sign (String c r) = (false, String c r)).
  { destruct c as [[] [] [] [] [] [] [] []]; try reflexivity; discriminate. }
  rewrite Hs.
  assert (Hw : lower (String c r) = String c r).
  { apply map_string_digits; [|exact Hd]. intros x Hx. apply (digit_char x Hx). }
  rewrite Hw.
  assert (Hinf : String.eqb (String c r) "inf" = false) by (simpl; rewrite Hi; reflexivity).
  assert (Hinfinity : String.eqb (String c r) "infinity" = false)
    by (simpl; rewrite Hi; reflexivity).
  assert (Hnan : String.eqb (String c r) "nan" = false) by (simpl; rewrite Hn; reflexivity).
  rewrite Hinf, Hinfinity, Hnan. simpl orb. cbv iota.
  unfold float_decimal. rewrite (span_digits_all _ Hd). simpl String.length.
  reflexivity.
Qed.

Lemma decimal_value_sign (s : string) :
  all_chars is_digit s = true ->
  decimal_value s 0 = 0%Z \/ exists p, decimal_value s 0 = Zpos p.
Proof.
  intros Hd. pose proof (decimal_value_nonneg s 0 Hd ltac:(lia)) as H.
  destruct (decimal_value s 0) as [|p|p]; [left; reflexivity | right; exists p; reflexivity | lia].
Qed.

Lemma float_of_whole_value (n : Z) :
  (0 <= n < 2 ^ 53)%Z ->
  int_of_float (float_of_decimal false n 0) = Some n
  /\ (float_of_decimal false n 0 = S754_zero false
      \/ exists m j, float_of_decimal false n 0 = S754_finite false m (- Z.of_nat j)
                     /\ Zpos m = (n * 2 ^ Z.of_nat j)%Z).
Proof.
  intros [H0 H]. destruct n as [|p|p]; [split; [reflexivity | left; reflexivity] | | lia].
  pose proof (digits_of_small p H) as Hd.
  rewrite (float_of_whole p H). split.
  - apply int_of_normal. lia.
  - right. exists (Pos.shiftl_nat p (Z.to_nat (53 - Zpos (digits2_pos p)))),
      (Z.to_nat (53 - Zpos (digits2_pos p))).
    split; [f_equal; lia | apply shiftl_nat_value].
Qed.

Lemma scaled_whole (s : string) (c : positive) :
  s <> "" -> all_chars is_digit s = true ->
  (decimal_value s 0 * Zpos c < 2 ^ 53)%Z ->
  float_of_pos c
  = S754_finite false (Pos.shiftl_nat c (Z.to_nat (53 - Zpos (digits2_pos c))))
                (Zpos (digits2_pos c) - 53) ->
  scaled s c = Some (decimal_value s 0 * Zpos c)%Z.
Proof.
  intros Hne Hd Hb Hc. unfold scaled. rewrite (py_float_digits s Hne Hd), Hc.
  destruct (decimal_value_sign s Hd) as [E | [p E]]; rewrite E in *; [reflexivity|].
  assert (Hle : (Zpos p <= Zpos p * Zpos c)%Z) by nia.
  assert (Hp : (Zpos p < 2 ^ 53)%Z) by lia.
  assert (Hpc : (Zpos (p * c) < 2 ^ 53)%Z) by (rewrite Pos2Z.inj_mul; exact Hb).
  rewrite (float_of_whole p Hp), (mul_of_whole p c Hpc).
  pose proof (digits_of_small (p * c) Hpc) as Hdpc.
  rewrite int_of_normal by lia. rewrite Pos2Z.inj_mul. reflexivity.
Qed.

Lemma blank_cleaned (t : string) :
  blank (Some t) = true -> strip (remove_char "," (upper t)) = "".
Proof.
  intros Hb.
  assert (Hu : blank (Some (upper t)) = true).
  { unfold upper. rewrite blank_map; [exact Hb|]. intros c. apply (case_chars c). }
  rewrite (blank_removed "," _ eq_refl Hu). rewrite blank_spaces in Hu.
  apply strip_empty. exact Hu.
Qed.

(** X14: a price written as a whole number, with "$" signs and commas
    anywhere in it, is read exactly: when the digits that remain spell the
    number [n] below 2^53, [parse_price] gives the binary64 number equal to
    [n] (so "$1,800" gives 1800.0). *)
Theorem whole_prices_are_exact (t s : string) :
  remove_char "," (remove_char "$" t) = s ->
  s <> "" -> all_chars is_digit s = true -> (decimal_value s 0 < 2 ^ 53)%Z ->
  exists f,
    parse_price (Some t) = PFloat f
    /\ int_of_float f = Some (decimal_value s 0)
    /\ (f = S754_zero false
        \/ exists m j, f = S754_finite false m (- Z.of_nat j)
                       /\ Zpos m = (decimal_value s 0 * 2 ^ Z.of_nat j)%Z).
Proof.
  intros Ht Hne Hd Hb.
  pose proof (decimal_value_nonneg s 0 Hd ltac:(lia)) as H0.
  exists (float_of_decimal false (decimal_value s 0) 0).
  split; [|apply float_of_whole_value; lia].
  unfold parse_price.
  destruct (blank (Some t)) eqn:Hbl.
  - exfalso. pose proof Hbl as Hsp. rewrite blank_spaces in Hsp.
    rewrite (blank_removed "$" t eq_refl Hbl), (blank_removed "," t eq_refl Hbl) in Ht.
    subst s. destruct t as [|c r]; [congruence|].
    simpl in Hd, Hsp. apply andb_prop in Hd as [Hc _]. apply andb_prop in Hsp as [Hs _].
    rewrite (digit_not_space c Hc) in Hs. discriminate.
  - simpl text_of. rewrite Ht, (strip_digits s Hd), (py_float_digits s Hne Hd). reflexivity.
Qed.

Lemma whole_prices_are_exact_witness :
  exists f,
    parse_price (Some "$1,800") = PFloat f
    /\ int_of_float f = Some (decimal_value "1800" 0)
    /\ (f = S754_zero false
        \/ exists m j, f = S754_finite false m (- Z.of_nat j)
                       /\ Zpos m = (decimal_value "1800" 0 * 2 ^ Z.of_nat j)%Z).
Proof.
  apply (whole_prices_are_exact "$1,800" "1800").
  - reflexivity.
  - discriminate.
  - reflexivity.
  - reflexivity.
Defined.

(** X15: a traffic figure written as a whole number is multiplied as it
    stands: when the cleaned text is digits spelling [n], with "K"s, the
    result is 1000 n; with "M"s (and no "K"), 1000000 n; with neither, [n];
    provided the result is below 2^53. *)
Theorem whole_traffic_is_exact (t s : string) :
  s <> "" -> all_chars is_digit s = true ->
  let cleaned := strip (remove_char "," (upper t)) in
  (has_char "K" cleaned = true -> remove_char "K" cleaned = s ->
   (decimal_value s 0 * 1000 < 2 ^ 53)%Z ->
   parse_traffic (Some t) = (decimal_value s 0 * 1000)%Z)
  /\ (has_char "K" cleaned = false -> has_char "M" cleaned = true ->
      remove_char "M" cleaned = s -> (decimal_value s 0 * 1000000 < 2 ^ 53)%Z ->
      parse_traffic (Some t) = (decimal_value s 0 * 1000000)%Z)
  /\ (cleaned = s -> (decimal_value s 0 < 2 ^ 53)%Z ->
      parse_traffic (Some t) = decimal_value s 0).
Proof.
  intros Hne Hd cleaned.
  assert (Hnb : cleaned <> "" -> blank (Some t) = false).
  { intros Hc. destruct (blank (Some t)) eqn:Hb; [|reflexivity].
    exfalso. apply Hc. apply blank_cleaned. exact Hb. }
  split; [|split].
  - intros HK Hs Hb. unfold parse_traffic. rewrite Hnb.
    + simpl text_of. fold cleaned. rewrite HK, Hs.
      rewrite (scaled_whole s 1000 Hne Hd Hb); [reflexivity | vm_compute; reflexivity].
    + intros E. rewrite E in HK. discriminate.
  - intros HK HM Hs Hb. unfold parse_traffic. rewrite Hnb.
    + simpl text_of. fold cleaned. rewrite HK, HM, Hs.
      rewrite (scaled_whole s 1000000 Hne Hd Hb); [reflexivity | vm_compute; reflexivity].
    + intros E. rewrite E in HM. discriminate.
  - intros Hs Hb. unfold parse_traffic. rewrite Hnb.
    + simpl text_of. fold cleaned. rewrite Hs.
      rewrite (has_char_digits "K" s eq_refl Hd), (has_char_digits "M" s eq_refl Hd).
      rewrite (py_float_digits s Hne Hd).
      pose proof (decimal_value_nonneg s 0 Hd ltac:(lia)) as H0.
      destruct (float_of_whole_value (decimal_value s 0) ltac:(lia)) as [Hi _].
      rewrite Hi. reflexivity.
    + rewrite Hs. exact Hne.
Qed.

Lemma whole_traffic_is_exact_witness :
  parse_traffic (Some " 1,250k ") = (decimal_value "1250" 0 * 1000)%Z.
Proof.
  refine (proj1 (whole_traffic_is_exact " 1,250k " "1250" _ _) _ _ _).
  - discriminate.
  - reflexivity.
  - reflexivity.
  - reflexivity.
  - reflexivity.
Defined.
